(** * The VirtualBox machinery of Cuckoo Sandbox

    A shallow embedding of [cuckoo/machinery/virtualbox.py]: the class
    [VirtualBox] drives [VBoxManage] through child processes and parses
    its textual output.  Python byte strings are [string]s, Python
    integers are [Z], exceptions are the [Raise] result of a small
    state-and-exception monad, and every interaction with the outside
    (a process launch, a poll, a log record, a registry update) is
    appended to a trace of [event]s. *)

From Stdlib Require Import String Ascii List ZArith Bool Lia.
Import ListNotations.

Local Open Scope list_scope.
Local Open Scope string_scope.

(** ** Python string primitives used by the module *)

Module Py.

(** The double quote and the line feed. *)
Definition dquote : ascii := "034"%char.
Definition newline : ascii := "010"%char.

(** [split_pair sep s] is the first field of [s] and the remaining
    fields, cut at every occurrence of [sep]. *)
Fixpoint split_pair (sep : ascii) (s : string) : string * list string :=
  match s with
  | EmptyString => (EmptyString, [])
  | String a s' =>
      let (h, t) := split_pair sep s' in
      if Ascii.eqb a sep then (EmptyString, h :: t) else (String a h, t)
  end.

(** [s.split(sep)] for a one-character separator: never empty. *)
Definition split (sep : ascii) (s : string) : list string :=
  let (h, t) := split_pair sep s in h :: t.

(** [s.count(c)] *)
Fixpoint count (c : ascii) (s : string) : nat :=
  match s with
  | EmptyString => 0
  | String a s' => (if Ascii.eqb a c then 1 else 0) + count c s'
  end.

(** [c in s] *)
Fixpoint contains (c : ascii) (s : string) : bool :=
  match s with
  | EmptyString => false
  | String a s' => Ascii.eqb a c || contains c s'
  end.

(** [s.startswith(p)] *)
Definition startswith (p s : string) : bool := String.prefix p s.

Definition lower_char (a : ascii) : ascii :=
  let n := nat_of_ascii a in
  if (65 <=? n)%nat && (n <=? 90)%nat then ascii_of_nat (n + 32) else a.

Definition upper_char (a : ascii) : ascii :=
  let n := nat_of_ascii a in
  if (97 <=? n)%nat && (n <=? 122)%nat then ascii_of_nat (n - 32) else a.

Fixpoint map_chars (f : ascii -> ascii) (s : string) : string :=
  match s with
  | EmptyString => EmptyString
  | String a s' => String (f a) (map_chars f s')
  end.

(** [s.lower()] and [s.upper()] on a byte string. *)
Definition lower : string -> string := map_chars lower_char.
Definition upper : string -> string := map_chars upper_char.

(** Truth value of a string: only the empty string is false. *)
Definition truthy (s : string) : bool := negb (String.eqb s "").

(** Truth value of a variable that is [None] or a string. *)
Definition truthy_opt (o : option string) : bool :=
  match o with
  | None => false
  | Some s => truthy s
  end.

(** [x in xs] for a list of strings. *)
Definition mem (x : string) (xs : list string) : bool :=
  existsb (String.eqb x) xs.

(** A string wrapped in double quotes. *)
Definition quoted (s : string) : string :=
  String dquote (s ++ String dquote EmptyString).

(** Lines joined by line feeds, the inverse reading of [split newline]. *)
Fixpoint unlines (ls : list string) : string :=
  match ls with
  | [] => EmptyString
  | [l] => l
  | l :: rest => l ++ String newline (unlines rest)
  end.

End Py.

(** ** Exceptions, log records and the trace of external events *)

Inductive exn : Type :=
| OSError (msg : string)
| CalledProcessError (returncode : Z) (cmd : list string)
| CuckooMachineError (msg : string)
| IndexError
| UnboundLocalError.

Inductive level : Type := DEBUG | INFO | WARNING | CRITICAL.

(** An argument handed to the logger next to its format string. *)
Inductive logarg : Type :=
| LStr (s : string)
| LExn (e : exn).

Inductive event : Type :=
| EvLog (lvl : level) (fmt : string) (args : list logarg)
| EvExec (args : list string)
| EvPoll (r : option Z)
| EvSleep
| EvTerminate
| EvLookup (label : string)
| EvSetStatus (label status : string)
| EvWaitStatus (label : string) (targets : list string).

(** What a child process that ran to completion leaves behind. *)
Record completed : Type := Completed {
  returncode : Z;
  stdout : string;
  stderr : string
}.

(** The machine record of the registry, as far as the module reads it. *)
Record machine : Type := Machine {
  snapshot : option string;
  options : list string
}.

(** The configuration values the module consumes. *)
Record config : Type := Config {
  virtualbox_path : string;
  virtualbox_mode : string;
  timeouts_vm_state : Z
}.

(** ** The host: child processes and the collaborators of the base class

    [Popen], [subprocess.check_call], [time.sleep] and the methods the
    class inherits from [Machinery] are not part of the module; they are
    the operations of a [Host] over a world [W]. *)

Class Host (W : Type) : Type := {
  proc : Type;
  (** launch a command and block until it exits; [inl msg] is the
      [OSError] of a failed launch *)
  host_run : list string -> W -> (string + completed) * W;
  (** launch a command without waiting *)
  host_spawn : list string -> W -> (string + proc) * W;
  (** [proc.poll()]: the exit code once the process is reaped *)
  host_poll : proc -> W -> option Z * W;
  (** [proc.terminate()] *)
  host_terminate : proc -> W -> W;
  (** [time.sleep(1)] *)
  host_sleep : W -> W;
  (** [self.db.view_machine_by_label(label)] *)
  host_view_machine : string -> W -> machine;
  (** [self.set_status(label, status)] *)
  host_set_status : string -> string -> W -> W;
  (** [self._wait_status(label, *states)]: [Some msg] is the
      [CuckooMachineError] of a wait that timed out *)
  host_wait_status : string -> list string -> W -> option string * W;
  (** [self.pcap_path(task.id)] *)
  host_pcap_path : Z -> string
}.

(** ** The monad: world, trace, exceptions and fuel *)

Inductive result (A : Type) : Type :=
| Ok (a : A)
| Raise (e : exn)
| OutOfFuel.

Arguments Ok {A} a.
Arguments Raise {A} e.
Arguments OutOfFuel {A}.

Record st (W : Type) : Type := St {
  world : W;
  trace : list event
}.

Arguments St {W} world trace.
Arguments world {W} s.
Arguments trace {W} s.

Definition M (W A : Type) : Type := st W -> result A * st W.

Definition ret {W A} (a : A) : M W A := fun s => (Ok a, s).

Definition bind {W A B} (m : M W A) (k : A -> M W B) : M W B :=
  fun s =>
    match m s with
    | (Ok a, s') => k a s'
    | (Raise e, s') => (Raise e, s')
    | (OutOfFuel, s') => (OutOfFuel, s')
    end.

Definition raise {W A} (e : exn) : M W A := fun s => (Raise e, s).

Definition out_of_fuel {W A} : M W A := fun s => (OutOfFuel, s).

(** [try: m except <handler's exceptions> as e: handler e].  The handler
    answers [None] on the exceptions its clause does not name. *)
Definition try_except {W A} (m : M W A) (handler : exn -> option (M W A))
  : M W A :=
  fun s =>
    match m s with
    | (Raise e, s') =>
        match handler e with
        | Some h => h s'
        | None => (Raise e, s')
        end
    | r => r
    end.

Definition emit {W} (e : event) : M W unit :=
  fun s => (Ok tt, St (world s) (trace s ++ [e])).

Declare Scope monad_scope.
Delimit Scope monad_scope with monad.
Notation "x <- m ;; k" := (bind m (fun x => k))
  (at level 61, m at next level, right associativity) : monad_scope.
Notation "m ;; k" := (bind m (fun _ => k))
  (at level 61, right associativity) : monad_scope.
Local Open Scope monad_scope.

(** The clauses [except OSError as e] and
    [except subprocess.CalledProcessError as e]. *)
Definition on_OSError {W A} (h : string -> M W A) (e : exn) : option (M W A) :=
  match e with
  | OSError msg => Some (h msg)
  | _ => None
  end.

Definition on_CalledProcessError {W A} (h : exn -> M W A) (e : exn)
  : option (M W A) :=
  match e with
  | CalledProcessError _ _ => Some (h e)
  | _ => None
  end.

(** [xs[i]] *)
Definition index {W} (xs : list string) (i : nat) : M W string :=
  match nth_error xs i with
  | Some x => ret x
  | None => raise IndexError
  end.

(** ** The class [VirtualBox] *)

Record task : Type := Task { id : Z }.

(** VM states. *)
Definition SAVED : string := "saved".
Definition RUNNING : string := "running".
Definition POWEROFF : string := "poweroff".
Definition ABORTED : string := "aborted".
Definition ERROR : string := "machete".

Section VirtualBox.

Context {W : Type} {host : Host W}.
Variable cfg : config.

(** *** Primitive actions: each one leaves its event in the trace *)

Definition log (lvl : level) (fmt : string) (args : list logarg) : M W unit :=
  emit (EvLog lvl fmt args).

(** [Popen(args, stdout=PIPE, stderr=PIPE, close_fds=True)] followed by
    [.communicate()] or [.wait()]. *)
Definition popen_run (args : list string) : M W completed :=
  fun s =>
    let tr := (trace s ++ [EvExec args])%list in
    match host_run args (world s) with
    | (inl msg, w) => (Raise (OSError msg), St w tr)
    | (inr c, w) => (Ok c, St w tr)
    end.

(** [subprocess.check_call(args)] *)
Definition check_call (args : list string) : M W unit :=
  c <- popen_run args ;;
  if (returncode c =? 0)%Z then ret tt
  else raise (CalledProcessError (returncode c) args).

(** [Popen(args, ...)] kept as a handle. *)
Definition popen (args : list string) : M W proc :=
  fun s =>
    let tr := (trace s ++ [EvExec args])%list in
    match host_spawn args (world s) with
    | (inl msg, w) => (Raise (OSError msg), St w tr)
    | (inr p, w) => (Ok p, St w tr)
    end.

Definition poll (p : proc) : M W (option Z) :=
  fun s =>
    let (r, w) := host_poll p (world s) in
    (Ok r, St w (trace s ++ [EvPoll r])).

Definition terminate (p : proc) : M W unit :=
  fun s => (Ok tt, St (host_terminate p (world s)) (trace s ++ [EvTerminate])).

Definition sleep1 : M W unit :=
  fun s => (Ok tt, St (host_sleep (world s)) (trace s ++ [EvSleep])).

Definition view_machine_by_label (label : string) : M W machine :=
  fun s =>
    (Ok (host_view_machine label (world s)),
     St (world s) (trace s ++ [EvLookup label])).

Definition set_status (label status : string) : M W unit :=
  fun s =>
    (Ok tt, St (host_set_status label status (world s))
               (trace s ++ [EvSetStatus label status])).

Definition _wait_status (label : string) (states : list string) : M W unit :=
  fun s =>
    let tr := (trace s ++ [EvWaitStatus label states])%list in
    match host_wait_status label states (world s) with
    | (Some msg, w) => (Raise (CuckooMachineError msg), St w tr)
    | (None, w) => (Ok tt, St w tr)
    end.

(** *** [_status] *)

(** The test of the status loop on one line. *)
Definition is_vmstate_line (line : string) : bool :=
  Py.startswith "VMState=" line && (Py.count Py.dquote line =? 2)%nat.

(** The loop [for line in output.split("\n")] of [_status]. *)
Fixpoint status_loop (label : string) (lines : list string)
    (status : option string) : M W (option string) :=
  match lines with
  | [] => ret status
  | line :: rest =>
      if is_vmstate_line line then
        field <- index (Py.split Py.dquote line) 1 ;;
        let status' := Py.lower field in
        log DEBUG ("Machine " ++ label ++ " status " ++ status') [] ;;
        status_loop label rest (Some status')
      else status_loop label rest status
  end.

(** The [try] block of [_status]: the status set so far and [output],
    which stays unbound when the launch fails. *)
Definition status_query (label : string) : M W (option string * option string) :=
  try_except
    (c <- popen_run [virtualbox_path cfg; "showvminfo"; label;
                     "--machinereadable"] ;;
     if negb (returncode c =? 0)%Z then
       log DEBUG
         "VBoxManage returns error checking status for machine %s: %s"
         [LStr label; LStr (stderr c)] ;;
       ret (Some ERROR, Some (stdout c))
     else ret (None, Some (stdout c)))
    (on_OSError (fun msg =>
       log WARNING "VBoxManage failed to check status for machine %s: %s"
         [LStr label; LExn (OSError msg)] ;;
       ret (Some ERROR, None))).

Definition _status (label : string) : M W string :=
  log DEBUG ("Getting status for " ++ label) [] ;;
  q <- status_query label ;;
  let (status, output) := q in
  status <-
    (if negb (Py.truthy_opt status) then
       match output with
       | Some out => status_loop label (Py.split Py.newline out) status
       | None => raise UnboundLocalError
       end
     else ret status) ;;
  match status with
  | Some st =>
      if Py.truthy st then set_status label st ;; ret st
      else raise (CuckooMachineError ("Unable to get status for " ++ label))
  | None => raise (CuckooMachineError ("Unable to get status for " ++ label))
  end.

(** *** [dump_pcap] *)

(** Either [try] block of [dump_pcap]; [false] stands for the [return]
    of its [except] clause. *)
Definition pcap_step (args : list string) (fmt : string) : M W bool :=
  try_except
    (check_call args ;; ret true)
    (on_CalledProcessError (fun e =>
       log CRITICAL fmt [LExn e] ;; ret false)).

Definition dump_pcap (label : string) (t : task) : M W unit :=
  ok <- pcap_step [virtualbox_path cfg; "controlvm"; label;
                   "nictracefile1"; host_pcap_path (id t)]
          "Unable to set NIC tracefile (pcap file): %s" ;;
  if ok then
    _ <- pcap_step [virtualbox_path cfg; "controlvm"; label;
                    "nictrace1"; "on"]
           "Unable to enable NIC tracing (pcap file): %s" ;;
    ret tt
  else ret tt.

(** *** [start] *)

(** The arguments of the snapshot command and the log record that goes
    with the choice. *)
Definition restore_args (label : string) (m : machine) : M W (list string) :=
  let args := [virtualbox_path cfg; "snapshot"; label] in
  if Py.truthy_opt (snapshot m) then
    let snap := match snapshot m with Some sn => sn | None => "" end in
    log DEBUG "Using snapshot %s for virtual machine %s"
      [LStr snap; LStr label] ;;
    ret (args ++ ["restore"; snap])%list
  else
    log DEBUG "Using current snapshot for virtual machine %s" [LStr label] ;;
    ret (args ++ ["restorecurrent"])%list.

Definition start (label : string) (t : task) : M W unit :=
  log DEBUG ("Starting vm " ++ label) [] ;;
  status <- _status label ;;
  if String.eqb status RUNNING then
    raise (CuckooMachineError
             ("Trying to start an already started vm " ++ label))
  else
    m <- view_machine_by_label label ;;
    args <- restore_args label m ;;
    try_except
      (c <- popen_run args ;;
       if negb (returncode c =? 0)%Z then
         raise (CuckooMachineError
           "VBoxManage exited with error trying to restore the machine's snapshot")
       else ret tt)
      (on_OSError (fun msg =>
         raise (CuckooMachineError
                  ("VBoxManage failed restoring the machine: " ++ msg)))) ;;
    _wait_status label [SAVED] ;;
    try_except
      (c <- popen_run [virtualbox_path cfg; "startvm"; label;
                       "--type"; virtualbox_mode cfg] ;;
       if Py.truthy (stderr c) then raise (OSError (stderr c)) else ret tt)
      (on_OSError (fun msg =>
         raise (CuckooMachineError
                  ("VBoxManage failed starting the machine in "
                   ++ Py.upper (virtualbox_mode cfg) ++ " mode: " ++ msg)))) ;;
    _wait_status label [RUNNING] ;;
    if Py.mem "nictrace" (options m) then dump_pcap label t else ret tt.

(** *** [stop] *)

(** The loop [while proc.poll() is None] of [stop].  It returns
    [proc.returncode] and [stop_me] as they are when the loop is left;
    every poll costs one unit of fuel. *)
Fixpoint poll_loop (fuel : nat) (label : string) (p : proc)
    (vm_state_timeout stop_me : Z) : M W (Z * Z) :=
  match fuel with
  | O => out_of_fuel
  | S fuel' =>
      r <- poll p ;;
      match r with
      | Some rc => ret (rc, stop_me)
      | None =>
          if (stop_me <? vm_state_timeout)%Z then
            sleep1 ;;
            poll_loop fuel' label p vm_state_timeout (stop_me + 1)%Z
          else
            log DEBUG ("Stopping vm " ++ label ++ " timeouted. Killing") [] ;;
            terminate p ;;
            poll_loop fuel' label p vm_state_timeout stop_me
      end
  end.

Definition stop (fuel : nat) (label : string) : M W unit :=
  log DEBUG ("Stopping vm " ++ label) [] ;;
  status <- _status label ;;
  if Py.mem status [POWEROFF; ABORTED] then
    raise (CuckooMachineError
             ("Trying to stop an already stopped vm " ++ label))
  else
    let vm_state_timeout := timeouts_vm_state cfg in
    try_except
      (p <- popen [virtualbox_path cfg; "controlvm"; label; "poweroff"] ;;
       r <- poll_loop fuel label p vm_state_timeout 0%Z ;;
       let (rc, stop_me) := r in
       if negb (rc =? 0)%Z && (stop_me <? vm_state_timeout)%Z then
         log DEBUG "VBoxManage exited with error powering off the machine" []
       else ret tt)
      (on_OSError (fun msg =>
         raise (CuckooMachineError
                  ("VBoxManage failed powering off the machine: " ++ msg)))) ;;
    _wait_status label [POWEROFF; ABORTED; SAVED].

(** *** [_list] *)

(** The loop [for line in output.split("\n")] of [_list]. *)
Fixpoint list_loop (lines : list string) (machines : list string)
  : M W (list string) :=
  match lines with
  | [] => ret machines
  | line :: rest =>
      if negb (Py.contains Py.dquote line) then list_loop rest machines
      else
        label <- index (Py.split Py.dquote line) 1 ;;
        if String.eqb label "<inaccessible>" then
          log WARNING
            "Found an inaccessible virtual machine, please check its state."
            [] ;;
          list_loop rest machines
        else list_loop rest (machines ++ [label])%list
  end.

Definition _list : M W (list string) :=
  c <- try_except
         (popen_run [virtualbox_path cfg; "list"; "vms"])
         (on_OSError (fun msg =>
            raise (CuckooMachineError
                     ("VBoxManage error listing installed machines: "
                      ++ msg)))) ;;
  list_loop (Py.split Py.newline (stdout c)) [].

(** *** [dump_memory] *)

(** The dispatch on the version text. *)
Definition dumpcmd_of (output : string) : string :=
  if Py.startswith "5" output then "dumpvmcore" else "dumpguestcore".

Definition dump_memory (label path : string) : M W unit :=
  c <- try_except
         (c <- popen_run [virtualbox_path cfg; "-v"] ;;
          (if negb (returncode c =? 0)%Z then
             log DEBUG
               "VBoxManage returns error checking status for machine %s: %s"
               [LStr label; LStr (stderr c)]
           else ret tt) ;;
          ret c)
         (on_OSError (fun msg =>
            raise (CuckooMachineError
                     ("VBoxManage failed return it's version: " ++ msg)))) ;;
  let dumpcmd := dumpcmd_of (stdout c) in
  try_except
    (_ <- popen_run [virtualbox_path cfg; "debugvm"; label; dumpcmd;
                     "--filename"; path] ;;
     log INFO
       "Successfully generated memory dump for virtual machine with label %s to path %s"
       [LStr label; LStr path])
    (on_OSError (fun msg =>
       raise (CuckooMachineError
                ("VBoxManage failed to take a memory dump of the machine with label "
                 ++ label ++ ": " ++ msg)))).

End VirtualBox.

(** ** What the specification says, in its own words *)

Module Spec.

(** The text after the first double quote of a line. *)
Fixpoint after_quote (s : string) : string :=
  match s with
  | EmptyString => EmptyString
  | String a s' => if Ascii.eqb a Py.dquote then s' else after_quote s'
  end.

(** The text before the first double quote of a line, all of it when
    there is none. *)
Fixpoint upto_quote (s : string) : string :=
  match s with
  | EmptyString => EmptyString
  | String a s' =>
      if Ascii.eqb a Py.dquote then EmptyString else String a (upto_quote s')
  end.

(** "The first quoted substring": what follows the first quote, up to
    the next quote or, when no quote closes it, up to the end of the
    line. *)
Definition first_quoted (line : string) : string :=
  upto_quote (after_quote line).

(** "A line is considered a candidate only if it contains at least one
    quote character; the label is the first quoted substring.  A label
    equal to a reserved sentinel string is skipped.  Returns the ordered
    sequence of remaining labels." *)
Definition labels_of_lines (lines : list string) : list string :=
  filter (fun l => negb (String.eqb l "<inaccessible>"))
    (map first_quoted (filter (Py.contains Py.dquote) lines)).

Definition labels (output : string) : list string :=
  labels_of_lines (Py.split Py.newline output).

(** "Extract the line of the form VMState=<quoted value> (exactly two
    quote characters on the line) and return its lowercased value": the
    values of all such lines, in the order of the output. *)
Definition vmstate_values_of_lines (lines : list string) : list string :=
  map (fun line => Py.lower (first_quoted line))
    (filter is_vmstate_line lines).

Definition vmstate_values (output : string) : list string :=
  vmstate_values_of_lines (Py.split Py.newline output).

(** The last element of a list. *)
Fixpoint last_opt {A : Type} (xs : list A) : option A :=
  match xs with
  | [] => None
  | [x] => Some x
  | _ :: rest => last_opt rest
  end.

(** The closed enumeration of machine states of the specification. *)
Definition machine_states : list string :=
  [SAVED; RUNNING; POWEROFF; ABORTED; ERROR].

End Spec.

(** The commands launched in a trace, oldest first. *)
Fixpoint commands (tr : list event) : list (list string) :=
  match tr with
  | [] => []
  | EvExec args :: rest => args :: commands rest
  | _ :: rest => commands rest
  end.

(** How often [proc.terminate()] was called in a trace. *)
Fixpoint terminations (tr : list event) : nat :=
  match tr with
  | [] => 0
  | EvTerminate :: rest => S (terminations rest)
  | _ :: rest => terminations rest
  end.

(** The polls of a trace that come after its first termination. *)
Fixpoint polls_after_terminate (tr : list event) : nat :=
  match tr with
  | [] => 0
  | EvTerminate :: rest =>
      length (filter (fun e => match e with EvPoll _ => true | _ => false end)
                rest)
  | _ :: rest => polls_after_terminate rest
  end.

(** ** Notions to speak about runs *)

(** The status line of a machine-readable dump. *)
Definition vmstate_line (value : string) : string :=
  "VMState=" ++ Py.quoted value.

(** The command of the status query. *)
Definition status_args (cfg : config) (label : string) : list string :=
  [virtualbox_path cfg; "showvminfo"; label; "--machinereadable"].

(** The commands of [dump_pcap]. *)
Definition tracefile_args {W : Type} {host : Host W} (cfg : config)
    (label : string) (t : task) : list string :=
  [virtualbox_path cfg; "controlvm"; label; "nictracefile1";
   host_pcap_path (id t)].

Definition trace_on_args (cfg : config) (label : string) : list string :=
  [virtualbox_path cfg; "controlvm"; label; "nictrace1"; "on"].

(** The command of the inventory listing. *)
Definition list_args (cfg : config) : list string :=
  [virtualbox_path cfg; "list"; "vms"].

(** The command that powers a machine off. *)
Definition poweroff_args (cfg : config) (label : string) : list string :=
  [virtualbox_path cfg; "controlvm"; label; "poweroff"].

(** The commands that query the version and take the memory dump. *)
Definition version_args (cfg : config) : list string :=
  [virtualbox_path cfg; "-v"].

Definition debugvm_args (cfg : config) (label dumpcmd path : string)
  : list string :=
  [virtualbox_path cfg; "debugvm"; label; dumpcmd; "--filename"; path].

(** The snapshot command of the specification: restore the named
    snapshot when one is set, the current one otherwise. *)
Definition snapshot_args (cfg : config) (label : string) (m : machine)
  : list string :=
  match snapshot m with
  | Some (String a sn) =>
      [virtualbox_path cfg; "snapshot"; label; "restore"; String a sn]
  | _ => [virtualbox_path cfg; "snapshot"; label; "restorecurrent"]
  end.

(** The debug records the status loop leaves for the lines of an
    output. *)
Definition status_logs (label : string) (lines : list string) : list event :=
  map (fun line =>
         EvLog DEBUG
           ("Machine " ++ label ++ " status "
            ++ Py.lower (Spec.first_quoted line)) [])
    (filter is_vmstate_line lines).

(** The error of a status that could not be resolved. *)
Definition status_unavailable (label : string) : exn :=
  CuckooMachineError ("Unable to get status for " ++ label).

(** The result of the status operation as a function of the outcome of
    the query: the sentinel when the launch fails or the exit code is
    not zero; otherwise the lowercased value of the last status line,
    and an error when there is none or when it is empty. *)
Definition status_outcome (label : string) (r : string + completed)
  : result string :=
  match r with
  | inl _ => Ok ERROR
  | inr c =>
      if (returncode c =? 0)%Z then
        match Spec.last_opt (Spec.vmstate_values (stdout c)) with
        | Some v =>
            if Py.truthy v then Ok v else Raise (status_unavailable label)
        | None => Raise (status_unavailable label)
        end
      else Ok ERROR
  end.

(** The events of one round of waiting and of one round of killing. *)
Definition wait_round : list event := [EvPoll None; EvSleep].

Definition kill_round (label : string) : list event :=
  [EvPoll None;
   EvLog DEBUG ("Stopping vm " ++ label ++ " timeouted. Killing") [];
   EvTerminate].

Fixpoint rounds (n : nat) (round : list event) : list event :=
  match n with
  | O => []
  | S n' => (round ++ rounds n' round)%list
  end.

(** The events of a polling loop that waits [n] seconds, then signals the
    process [m] times and finally sees it exit with code [rc]. *)
Definition timeout_trace (label : string) (n m : nat) (rc : Z) : list event :=
  (rounds n wait_round ++ rounds m (kill_round label)
   ++ [EvPoll (Some rc)])%list.

(** The debug record [start] leaves for its choice of snapshot. *)
Definition restore_log (label : string) (m : machine) : event :=
  match snapshot m with
  | Some (String a sn) =>
      EvLog DEBUG "Using snapshot %s for virtual machine %s"
        [LStr (String a sn); LStr label]
  | _ =>
      EvLog DEBUG "Using current snapshot for virtual machine %s" [LStr label]
  end.

(** A computation that only adds events to the trace. *)
Definition extends {W A : Type} (m : M W A) : Prop :=
  forall s : st W, exists evs : list event,
    trace (snd (m s)) = (trace s ++ evs)%list.

(** A computation whose first event is [e]. *)
Definition begins {W A : Type} (e : event) (m : M W A) : Prop :=
  forall s : st W, exists evs : list event,
    trace (snd (m s)) = (trace s ++ e :: evs)%list.

Section Process.

Context {W : Type} {host : Host W}.

(** [alive_rounds n p w]: each of [n] polls, one second apart, finds the
    process alive; the world after the last sleep. *)
Fixpoint alive_rounds (n : nat) (p : proc) (w : W) : option W :=
  match n with
  | O => Some w
  | S n' =>
      match host_poll p w with
      | (None, w') => alive_rounds n' p (host_sleep w')
      | (Some _, _) => None
      end
  end.

(** [signalled_rounds m p w]: each of [m] polls finds the process alive
    and is answered by a signal, and the next poll sees the process
    exited; its exit code and the world then. *)
Fixpoint signalled_rounds (m : nat) (p : proc) (w : W) : option (Z * W) :=
  match m with
  | O =>
      match host_poll p w with
      | (Some rc, w') => Some (rc, w')
      | (None, _) => None
      end
  | S m' =>
      match host_poll p w with
      | (None, w') => signalled_rounds m' p (host_terminate p w')
      | (Some _, _) => None
      end
  end.

End Process.

(** ** Further notions: the steps, the sleeps and the reports of a trace *)

(** The launches of commands and the waits for a status, the steps that
    act on the hypervisor. *)
Definition is_step (e : event) : bool :=
  match e with
  | EvExec _ | EvWaitStatus _ _ => true
  | _ => false
  end.

Definition steps (tr : list event) : list event := filter is_step tr.

Definition is_sleep (e : event) : bool :=
  match e with
  | EvSleep => true
  | _ => false
  end.

(** The seconds slept in a trace. *)
Definition sleeps (tr : list event) : nat := length (filter is_sleep tr).

(** The statuses reported to the registry in a trace, oldest first. *)
Fixpoint reports (tr : list event) : list (string * string) :=
  match tr with
  | [] => []
  | EvSetStatus label status :: rest => (label, status) :: reports rest
  | _ :: rest => reports rest
  end.

(** The command that starts a machine. *)
Definition startvm_args (cfg : config) (label : string) : list string :=
  [virtualbox_path cfg; "startvm"; label; "--type"; virtualbox_mode cfg].

Section Bodies.

Context {W : Type} {host : Host W}.
Variable cfg : config.

(** What [start] does once the status check has let it pass and the
    machine [m] was looked up: from the snapshot command on. *)
Definition start_body (label : string) (t : task) (m : machine) : M W unit :=
  try_except
    (c <- popen_run (snapshot_args cfg label m) ;;
     if negb (returncode c =? 0)%Z then
       raise (CuckooMachineError
         "VBoxManage exited with error trying to restore the machine's snapshot")
     else ret tt)
    (on_OSError (fun msg =>
       raise (CuckooMachineError
                ("VBoxManage failed restoring the machine: " ++ msg)))) ;;
  _wait_status label [SAVED] ;;
  try_except
    (c <- popen_run [virtualbox_path cfg; "startvm"; label;
                     "--type"; virtualbox_mode cfg] ;;
     if Py.truthy (stderr c) then raise (OSError (stderr c)) else ret tt)
    (on_OSError (fun msg =>
       raise (CuckooMachineError
                ("VBoxManage failed starting the machine in "
                 ++ Py.upper (virtualbox_mode cfg) ++ " mode: " ++ msg)))) ;;
  _wait_status label [RUNNING] ;;
  if Py.mem "nictrace" (options m) then dump_pcap cfg label t else ret tt.

(** What [stop] does once the status check has let it pass: from the
    launch of the poweroff command on. *)
Definition stop_body (fuel : nat) (label : string) : M W unit :=
  let vm_state_timeout := timeouts_vm_state cfg in
  try_except
    (p <- popen [virtualbox_path cfg; "controlvm"; label; "poweroff"] ;;
     r <- poll_loop fuel label p vm_state_timeout 0%Z ;;
     let (rc, stop_me) := r in
     if negb (rc =? 0)%Z && (stop_me <? vm_state_timeout)%Z then
       log DEBUG "VBoxManage exited with error powering off the machine" []
     else ret tt)
    (on_OSError (fun msg =>
       raise (CuckooMachineError
                ("VBoxManage failed powering off the machine: " ++ msg)))) ;;
  _wait_status label [POWEROFF; ABORTED; SAVED].

(** The world the status query leaves, and the machine record [start]
    reads in it. *)
Definition status_world (label : string) (s : st W) : W :=
  world (snd (_status cfg label s)).

Definition looked_up (label : string) (s : st W) : machine :=
  host_view_machine label (status_world label s).

(** [start] followed by [stop] on the same machine. *)
Definition start_then_stop (fuel : nat) (label : string) (t : task)
  : M W unit :=
  start cfg label t ;; stop cfg fuel label.

(** The state in which the body of [start] or [stop] begins: the one the
    status query leaves after the first debug record of the method. *)
Definition after_status (what label : string) (s : st W) : st W :=
  snd (_status cfg label
         (St (world s) (trace s ++ [EvLog DEBUG (what ++ label) []]))).

End Bodies.

(** ** A simulated host

    A deterministic world to run the module on: every blocking command
    is answered by a table, and the one child process of [stop] runs for
    a number of seconds (or hangs), and once signalled is still seen
    alive by a number of polls (or ignores the signal). *)

Module Sim.

Record process : Type := Process {
  runs_for : option nat;
  exit_code : Z;
  signalled : bool;
  reaped_after : option nat
}.

Record world : Type := World {
  answers : list string -> string + completed;
  spawn_error : option string;
  child : process;
  registered : machine;
  reported : list (string * string);
  wait_error : option string
}.

Definition set_child (w : world) (p : process) : world :=
  World (answers w) (spawn_error w) p (registered w) (reported w)
    (wait_error w).

Definition run (args : list string) (w : world)
  : (string + completed) * world :=
  (answers w args, w).

Definition spawn (args : list string) (w : world) : (string + unit) * world :=
  match spawn_error w with
  | Some msg => (inl msg, w)
  | None => (inr tt, w)
  end.

(** A process killed by SIGTERM has return code -15. *)
Definition poll (_ : unit) (w : world) : option Z * world :=
  let p := child w in
  if signalled p then
    match reaped_after p with
    | Some O => (Some (-15)%Z, w)
    | Some (S k) =>
        (None, set_child w (Process (runs_for p) (exit_code p) true (Some k)))
    | None => (None, w)
    end
  else
    match runs_for p with
    | Some O => (Some (exit_code p), w)
    | _ => (None, w)
    end.

Definition terminate (_ : unit) (w : world) : world :=
  let p := child w in
  set_child w (Process (runs_for p) (exit_code p) true (reaped_after p)).

Definition sleep (w : world) : world :=
  let p := child w in
  match runs_for p with
  | Some (S k) =>
      set_child w (Process (Some k) (exit_code p) (signalled p)
                     (reaped_after p))
  | _ => w
  end.

Definition report (label status : string) (w : world) : world :=
  World (answers w) (spawn_error w) (child w) (registered w)
    ((label, status) :: reported w) (wait_error w).

Definition wait (label : string) (states : list string) (w : world)
  : option string * world :=
  (wait_error w, w).

#[global] Instance host : Host world := {
  proc := unit;
  host_run := run;
  host_spawn := spawn;
  host_poll := poll;
  host_terminate := terminate;
  host_sleep := sleep;
  host_view_machine := fun _ w => registered w;
  host_set_status := report;
  host_wait_status := wait;
  host_pcap_path := fun _ => "dump.pcap"
}.

(** A configuration with a timeout of [t] seconds. *)
Definition cfg (t : Z) : config := Config "VBoxManage" "headless" t.

(** A world that answers every command with [a] and whose child process
    is [p]. *)
Definition make (a : string + completed) (p : process) : world :=
  World (fun _ => a) None p (Machine None []) [] None.

(** A process that exits with code 0 at once. *)
Definition prompt : process := Process (Some O) 0%Z false (Some O).

(** A process that hangs, and that [k] polls still see alive after it
    was signalled. *)
Definition stuck (k : nat) : process := Process None 0%Z false (Some k).

(** A process that hangs and ignores the signal. *)
Definition deaf : process := Process None 0%Z false None.

(** The answer of a command that exited with code 0 and printed [out]. *)
Definition prints (out : string) : string + completed :=
  inr (Completed 0%Z out "").

(** The initial state: a world and an empty trace. *)
Definition init (w : world) : st world := St w [].

(** A machine-readable dump without a status line. *)
Definition dump_without_state : string :=
  Py.unlines ["name=" ++ Py.quoted "cuckoo1"; "memory=512"].

(** A machine-readable dump of a paused machine. *)
Definition dump_paused : string :=
  Py.unlines ["name=" ++ Py.quoted "cuckoo1"; vmstate_line "paused";
              "VMStateChangeTime=" ++ Py.quoted "2016-01-01T00:00:00"].

(** A machine-readable dump with the given status. *)
Definition dump_of (value : string) : string :=
  Py.unlines ["name=" ++ Py.quoted "cuckoo1"; vmstate_line value].

(** A world whose commands cannot be launched. *)
Definition unlaunchable : world :=
  make (inl "[Errno 2] No such file or directory") prompt.

(** The state in which the machine [cuckoo1] has the given status and
    the child process of [stop] is [p]. *)
Definition machine_in (value : string) (p : process) : st world :=
  init (make (prints (dump_of value)) p).

(** A world in which the status query exits with code 1 and every other
    command succeeds silently. *)
Definition status_denied : world :=
  World
    (fun args =>
       if String.eqb (nth 1 args "") "showvminfo"
       then inr (Completed 1%Z "" "code E_ACCESSDENIED (0x80070005)")
       else inr (Completed 0%Z "" ""))
    None prompt (Machine None []) [] None.

(** A line with a single quote, followed by the reserved label. *)
Definition unclosed_reserved : string :=
  String Py.dquote "<inaccessible>".

(** A listing whose second line has a single quote. *)
Definition unclosed_listing : string :=
  Py.unlines [Py.quoted "box1" ++ " {uuid}"; String Py.dquote "box2 {uuid}"].

(** A world in which the commands that hold the word [verb] get the
    answer [a] and every other command prints [out]; the machine has the
    options [opts], the waits end with [wait] and the child is [p]. *)
Definition scene (verb : string) (a : string + completed) (out : string)
    (opts : list string) (wait : option string) (p : process) : world :=
  World (fun args => if Py.mem verb args then a else prints out)
    None p (Machine None opts) [] wait.

(** A world in which no child process can be spawned. *)
Definition unspawnable (out : string) : world :=
  World (fun _ => prints out) (Some "[Errno 12] Cannot allocate memory")
    prompt (Machine None []) [] None.

(** A process that exits with code [rc] after [n] seconds. *)
Definition exits_after (n : nat) (rc : Z) : process :=
  Process (Some n) rc false (Some O).

(** A powered off machine whose snapshot command exits with code 1. *)
Definition restore_fails : st world :=
  init (scene "snapshot" (inr (Completed 1%Z "" "")) (dump_of "poweroff")
          [] None prompt).

(** A powered off machine whose waits time out. *)
Definition wait_times_out : st world :=
  init (scene "" (inl "") (dump_of "poweroff") []
          (Some "Timeout hit while for machine cuckoo1 to change status")
          prompt).

(** A powered off machine whose start command exits with code 0 and
    writes on its standard error. *)
Definition start_complains : st world :=
  init (scene "startvm"
          (inr (Completed 0%Z "" "VBoxManage: error: The machine is locked"))
          (dump_of "poweroff") [] None prompt).

(** A powered off machine with the option [nictrace], for which the
    trace file cannot be set. *)
Definition tracefile_fails : st world :=
  init (scene "nictracefile1" (inr (Completed 1%Z "" ""))
          (dump_of "poweroff") ["nictrace"] None prompt).

(** A hypervisor of version 5 whose dump command exits with code 1. *)
Definition dump_fails : st world :=
  init (scene "debugvm" (inr (Completed 1%Z "" "VBoxManage: error"))
          "5.0.10" [] None prompt).

(** A hypervisor of version 5 whose dump command cannot be launched. *)
Definition dump_unlaunchable : st world :=
  init (scene "debugvm" (inl "[Errno 2] No such file or directory")
          "5.0.10" [] None prompt).

(** The inventory of the listing example. *)
Definition inventory : string :=
  Py.unlines
    [Py.quoted "box1" ++ " {uuid}";
     "no-quotes-here";
     Py.quoted "<inaccessible>" ++ " {uuid}";
     Py.quoted "box2" ++ " {uuid}"].

(** A state whose listing prints [out]. *)
Definition listing (out : string) : st world :=
  init (make (prints out) prompt).

(** The inventory of the example, printed twice. *)
Definition inventory_twice : string :=
  inventory ++ String Py.newline inventory.

End Sim.

(** * Properties *)

(** ** Strings *)

Section StringFacts.

Lemma append_assoc (s1 s2 s3 : string) :
  (s1 ++ s2) ++ s3 = s1 ++ s2 ++ s3.
Proof.
  induction s1 as [|a s1 IH]; simpl; [reflexivity|]. now rewrite IH.
Qed.

Lemma split_pair_fst (s : string) :
  fst (Py.split_pair Py.dquote s) = Spec.upto_quote s.
Proof.
  induction s as [|a s IH]; simpl; [reflexivity|].
  destruct (Py.split_pair Py.dquote s) as [h t]; simpl in IH.
  destruct (Ascii.eqb a Py.dquote); simpl; congruence.
Qed.

Lemma split_pair_snd_hd (s : string) :
  Py.contains Py.dquote s = true ->
  hd_error (snd (Py.split_pair Py.dquote s))
  = Some (Spec.first_quoted s).
Proof.
  unfold Spec.first_quoted.
  induction s as [|a s IH]; simpl; [discriminate|].
  intros Hc. pose proof (split_pair_fst s) as Hf.
  destruct (Py.split_pair Py.dquote s) as [h t]; simpl in *.
  destruct (Ascii.eqb a Py.dquote); simpl in *.
  - now rewrite Hf.
  - now apply IH.
Qed.

(** On a line with a quote, [line.split(quote)[1]] exists and is the
    first quoted substring. *)
Lemma split_index1 (line : string) :
  Py.contains Py.dquote line = true ->
  nth_error (Py.split Py.dquote line) 1 = Some (Spec.first_quoted line).
Proof.
  intros Hc. apply split_pair_snd_hd in Hc. unfold Py.split.
  destruct (Py.split_pair Py.dquote line) as [h t]; simpl in *.
  destruct t; simpl in *; congruence.
Qed.

Lemma count_contains (c : ascii) (s : string) :
  Py.count c s <> 0%nat -> Py.contains c s = true.
Proof.
  induction s as [|a s IH]; simpl; [congruence|].
  destruct (Ascii.eqb a c); simpl; auto.
Qed.

Lemma contains_count (c : ascii) (s : string) :
  Py.contains c s = false -> Py.count c s = 0%nat.
Proof.
  induction s as [|a s IH]; simpl; [reflexivity|].
  destruct (Ascii.eqb a c); simpl; [discriminate|auto].
Qed.

Lemma count_app (c : ascii) (s1 s2 : string) :
  Py.count c (s1 ++ s2) = (Py.count c s1 + Py.count c s2)%nat.
Proof.
  induction s1 as [|a s1 IH]; simpl; [reflexivity|]. rewrite IH. lia.
Qed.

Lemma vmstate_line_contains (line : string) :
  is_vmstate_line line = true -> Py.contains Py.dquote line = true.
Proof.
  unfold is_vmstate_line. intros H.
  apply andb_true_iff in H as [_ H]. apply Nat.eqb_eq in H.
  apply count_contains. lia.
Qed.

Lemma after_quote_app (pre rest : string) :
  Py.contains Py.dquote pre = false ->
  Spec.after_quote (pre ++ String Py.dquote rest) = rest.
Proof.
  induction pre as [|a pre IH]; simpl; [reflexivity|].
  destruct (Ascii.eqb a Py.dquote); simpl; [discriminate|auto].
Qed.

Lemma upto_quote_app (v rest : string) :
  Py.contains Py.dquote v = false ->
  Spec.upto_quote (v ++ String Py.dquote rest) = v.
Proof.
  induction v as [|a v IH]; simpl; [reflexivity|].
  destruct (Ascii.eqb a Py.dquote); simpl; [discriminate|].
  intros H. now rewrite IH.
Qed.

Lemma upto_quote_none (v : string) :
  Py.contains Py.dquote v = false -> Spec.upto_quote v = v.
Proof.
  induction v as [|a v IH]; simpl; [reflexivity|].
  destruct (Ascii.eqb a Py.dquote); simpl; [discriminate|].
  intros H. now rewrite IH.
Qed.

Lemma contains_app (c : ascii) (s1 s2 : string) :
  Py.contains c (s1 ++ s2) = Py.contains c s1 || Py.contains c s2.
Proof.
  induction s1 as [|a s1 IH]; simpl; [reflexivity|].
  rewrite IH. now rewrite orb_assoc.
Qed.

(** The first quoted substring of a line whose first two quotes enclose
    [v] is [v]. *)
Lemma first_quoted_quoted (pre v post : string) :
  Py.contains Py.dquote pre = false ->
  Py.contains Py.dquote v = false ->
  Spec.first_quoted (pre ++ Py.quoted v ++ post) = v.
Proof.
  intros Hpre Hv. unfold Spec.first_quoted, Py.quoted. simpl.
  rewrite after_quote_app by assumption.
  rewrite append_assoc. simpl.
  now apply upto_quote_app.
Qed.

(** The first quoted substring of a line with a single quote is all that
    follows the quote. *)
Lemma first_quoted_single (pre rest : string) :
  Py.contains Py.dquote pre = false ->
  Py.contains Py.dquote rest = false ->
  Spec.first_quoted (pre ++ String Py.dquote rest) = rest.
Proof.
  intros Hpre Hrest. unfold Spec.first_quoted.
  rewrite after_quote_app by assumption. now apply upto_quote_none.
Qed.

Lemma startswith_char (c : ascii) (s : string) :
  Py.startswith (String c EmptyString) s = true
  <-> exists rest, s = String c rest.
Proof.
  unfold Py.startswith. destruct s as [|a s]; simpl.
  - split; [discriminate|intros [r Hr]; discriminate].
  - destruct (Ascii.ascii_dec c a) as [->|Hne].
    + split; [eauto|]. intros _. now destruct s.
    + split; [discriminate|]. intros [r Hr]. congruence.
Qed.

End StringFacts.

(** ** Traces *)

Section TraceFacts.

Lemma commands_app (t1 t2 : list event) :
  commands (t1 ++ t2) = (commands t1 ++ commands t2)%list.
Proof.
  induction t1 as [|e t1 IH]; simpl; [reflexivity|].
  destruct e; simpl; now rewrite ?IH.
Qed.

Lemma terminations_app (t1 t2 : list event) :
  terminations (t1 ++ t2) = (terminations t1 + terminations t2)%nat.
Proof.
  induction t1 as [|e t1 IH]; simpl; [reflexivity|].
  destruct e; simpl; now rewrite ?IH.
Qed.

Lemma commands_status_logs (label : string) (lines : list string) :
  commands (status_logs label lines) = [].
Proof.
  unfold status_logs.
  induction (filter is_vmstate_line lines) as [|l ls IH]; simpl; auto.
Qed.

Lemma terminations_status_logs (label : string) (lines : list string) :
  terminations (status_logs label lines) = 0%nat.
Proof.
  unfold status_logs.
  induction (filter is_vmstate_line lines) as [|l ls IH]; simpl; auto.
Qed.

Lemma terminations_wait_rounds (n : nat) :
  terminations (rounds n wait_round) = 0%nat.
Proof.
  induction n as [|n IH]; simpl; auto.
Qed.

Lemma terminations_kill_rounds (label : string) (m : nat) :
  terminations (rounds m (kill_round label)) = m.
Proof.
  induction m as [|m IH]; simpl; auto.
Qed.

Lemma terminations_timeout_trace (label : string) (n m : nat) (rc : Z) :
  terminations (timeout_trace label n m rc) = m.
Proof.
  unfold timeout_trace.
  rewrite !terminations_app, terminations_wait_rounds,
    terminations_kill_rounds.
  simpl. lia.
Qed.

Lemma app_snoc2 {A : Type} (l : list A) (a b : A) :
  (l ++ [a; b] = (l ++ [a]) ++ [b])%list.
Proof.
  now rewrite <- app_assoc.
Qed.

Lemma last_opt_cons {A : Type} (x : A) (xs : list A) :
  Spec.last_opt (x :: xs)
  = match Spec.last_opt xs with
    | Some y => Some y
    | None => Some x
    end.
Proof.
  destruct xs as [|y ys]; [reflexivity|].
  change (Spec.last_opt (x :: y :: ys)) with (Spec.last_opt (y :: ys)).
  destruct (Spec.last_opt (y :: ys)) eqn:E; [reflexivity|].
  exfalso. revert y E. induction ys as [|z ys IH]; intros y E.
  - discriminate.
  - apply (IH z). exact E.
Qed.

End TraceFacts.

(** ** The status query *)

Section StatusFacts.

Context {W : Type} {host : Host W}.
Variable cfg : config.

(** The status loop never fails: it keeps the value of the last status
    line and leaves one debug record per status line. *)
Lemma status_loop_eq (label : string) (lines : list string) :
  forall (status : option string) (s : st W),
    status_loop label lines status s
    = (Ok match Spec.last_opt (Spec.vmstate_values_of_lines lines) with
          | Some v => Some v
          | None => status
          end,
       St (world s) (trace s ++ status_logs label lines)).
Proof.
  unfold Spec.vmstate_values_of_lines, status_logs.
  induction lines as [|line rest IH]; intros status [w tr].
  - simpl. now rewrite app_nil_r.
  - cbn [status_loop filter]. destruct (is_vmstate_line line) eqn:E.
    + cbn [map]. rewrite last_opt_cons.
      unfold bind at 1, index.
      rewrite (split_index1 line (vmstate_line_contains line E)).
      unfold ret at 1, bind at 1, log, emit. cbn [world trace].
      rewrite IH. cbn [world trace]. rewrite <- app_assoc.
      now destruct (Spec.last_opt _).
    + apply IH.
Qed.

(** The whole run of [_status]: its result, the world it leaves and the
    events it adds, by the outcome of the query. *)
Lemma _status_run (label : string) (s : st W) :
  _status cfg label s
  = let tr0 :=
      (trace s ++ [EvLog DEBUG ("Getting status for " ++ label) [];
                   EvExec (status_args cfg label)])%list in
    match host_run (status_args cfg label) (world s) with
    | (inl msg, w) =>
        (Ok ERROR,
         St (host_set_status label ERROR w)
           (tr0 ++ [EvLog WARNING
                      "VBoxManage failed to check status for machine %s: %s"
                      [LStr label; LExn (OSError msg)];
                    EvSetStatus label ERROR]))
    | (inr c, w) =>
        if (returncode c =? 0)%Z then
          let tr1 :=
            (tr0 ++ status_logs label (Py.split Py.newline (stdout c)))%list in
          match status_outcome label (inr c) with
          | Ok v =>
              (Ok v, St (host_set_status label v w)
                       (tr1 ++ [EvSetStatus label v]))
          | r => (r, St w tr1)
          end
        else
          (Ok ERROR,
           St (host_set_status label ERROR w)
             (tr0 ++ [EvLog DEBUG
                        "VBoxManage returns error checking status for machine %s: %s"
                        [LStr label; LStr (stderr c)];
                      EvSetStatus label ERROR]))
    end.
Proof.
  destruct s as [w0 tr]. unfold status_args.
  unfold _status, status_query, try_except, popen_run.
  unfold bind at 1. unfold log at 1, emit. cbn [world trace].
  unfold bind at 1. unfold bind at 1. cbn [world trace].
  destruct (host_run _ w0) as [[msg|c] w]; cbn [on_OSError].
  - unfold bind, log, emit, ret, set_status. cbn.
    now rewrite <- !app_assoc.
  - unfold status_outcome, Spec.vmstate_values.
    destruct (returncode c =? 0)%Z; cbn [negb].
    + unfold ret at 1. cbn [Py.truthy_opt negb].
      unfold bind at 1. rewrite status_loop_eq. cbn [world trace].
      rewrite <- !app_assoc. cbn [app].
      destruct (Spec.last_opt _) as [v|]; [|reflexivity].
      destruct (Py.truthy v); [|reflexivity].
      unfold bind, set_status, ret. cbn [world trace].
      now rewrite <- !app_assoc.
    + unfold bind, log, emit, ret, set_status. cbn.
      now rewrite <- !app_assoc.
Qed.

(** The result of [_status] is decided by the outcome of the query. *)
Lemma _status_result (label : string) (s : st W) :
  fst (_status cfg label s)
  = status_outcome label (fst (host_run (status_args cfg label) (world s))).
Proof.
  rewrite _status_run. cbv zeta.
  destruct (host_run _ (world s)) as [[msg|c] w]; cbn [fst]; [reflexivity|].
  unfold status_outcome.
  destruct (returncode c =? 0)%Z; [|reflexivity].
  destruct (Spec.last_opt _) as [v|]; [|reflexivity].
  now destruct (Py.truthy v).
Qed.

(** The result of the query does not depend on the trace. *)
Lemma _status_result_trace (label : string) (s : st W) (tr : list event) :
  fst (_status cfg label (St (world s) tr)) = fst (_status cfg label s).
Proof.
  now rewrite !_status_result.
Qed.

(** [_status] launches one command, the query. *)
Lemma _status_commands (label : string) (s : st W) :
  commands (trace (snd (_status cfg label s)))
  = (commands (trace s) ++ [status_args cfg label])%list.
Proof.
  rewrite _status_run. cbv zeta.
  destruct (host_run _ (world s)) as [[msg|c] w].
  - cbn [snd trace]. rewrite !commands_app. cbn. now rewrite app_nil_r.
  - destruct (returncode c =? 0)%Z.
    + destruct (status_outcome label (inr c)); cbn [snd trace];
        rewrite !commands_app, commands_status_logs; cbn;
        now rewrite ?app_nil_r.
    + cbn [snd trace]. rewrite !commands_app. cbn. now rewrite app_nil_r.
Qed.

(** [_status] signals no process. *)
Lemma _status_terminations (label : string) (s : st W) :
  terminations (trace (snd (_status cfg label s))) = terminations (trace s).
Proof.
  rewrite _status_run. cbv zeta.
  destruct (host_run _ (world s)) as [[msg|c] w].
  - cbn [snd trace]. rewrite !terminations_app. cbn. lia.
  - destruct (returncode c =? 0)%Z.
    + destruct (status_outcome label (inr c)); cbn [snd trace];
        rewrite !terminations_app, terminations_status_logs; cbn; lia.
    + cbn [snd trace]. rewrite !terminations_app. cbn. lia.
Qed.

(** A status that [_status] returns was reported to the registry last. *)
Lemma _status_reported (label : string) (s : st W) (v : string) :
  fst (_status cfg label s) = Ok v ->
  exists (w : W) (tr : list event),
    snd (_status cfg label s)
    = St (host_set_status label v w) (tr ++ [EvSetStatus label v]).
Proof.
  rewrite _status_run. cbv zeta.
  destruct (host_run _ (world s)) as [[msg|c] w].
  - cbn [fst snd]. intros [= <-]. eexists _, _.
    rewrite app_snoc2. reflexivity.
  - destruct (returncode c =? 0)%Z.
    + destruct (status_outcome label (inr c)) as [v'| |]; cbn [fst snd];
        try discriminate.
      intros [= <-]. eexists _, _. reflexivity.
    + cbn [fst snd]. intros [= <-]. eexists _, _.
      rewrite app_snoc2. reflexivity.
Qed.

End StatusFacts.

Section StatusLines.

Lemma vmstate_line_matches (value : string) :
  Py.contains Py.dquote value = false ->
  is_vmstate_line (vmstate_line value) = true.
Proof.
  intros Hv. unfold is_vmstate_line, vmstate_line, Py.quoted.
  apply andb_true_iff. split; [reflexivity|].
  apply Nat.eqb_eq. cbn.
  rewrite count_app, (contains_count _ _ Hv). reflexivity.
Qed.

Lemma vmstate_line_value (value : string) :
  Py.contains Py.dquote value = false ->
  Spec.first_quoted (vmstate_line value) = value.
Proof.
  intros Hv. unfold vmstate_line.
  rewrite <- (first_quoted_quoted "VMState=" value "") at 2
    by (reflexivity || assumption).
  f_equal. f_equal. induction (Py.quoted value) as [|a q IH]; simpl; congruence.
Qed.

Lemma last_opt_snoc {A : Type} (xs : list A) (x : A) :
  Spec.last_opt (xs ++ [x]) = Some x.
Proof.
  induction xs as [|y ys IH]; [reflexivity|].
  change ((y :: ys) ++ [x])%list with (y :: (ys ++ [x]))%list.
  rewrite last_opt_cons. now rewrite IH.
Qed.

Lemma vmstate_values_app (l1 l2 : list string) :
  Spec.vmstate_values_of_lines (l1 ++ l2)
  = (Spec.vmstate_values_of_lines l1 ++ Spec.vmstate_values_of_lines l2)%list.
Proof.
  unfold Spec.vmstate_values_of_lines. now rewrite filter_app, map_app.
Qed.

End StatusLines.

(** ** Claims on the status operation *)

Section StatusClaims.

Context {W : Type} {host : Host W}.
Variable cfg : config.

(** C1, as the code has it: the status operation returns the sentinel
    [ERROR] exactly when the query cannot be launched or exits with a
    code other than zero.  When the query exits with zero, it returns the
    lowercased quoted value of the last line that starts with [VMState=]
    and holds exactly two quotes, provided that value is not empty, and
    it raises the error [Unable to get status] when no line matches or
    when the value is empty. *)
Theorem status_by_query_outcome (label : string) (s : st W) :
  fst (_status cfg label s)
  = status_outcome label (fst (host_run (status_args cfg label) (world s))).
Proof.
  rewrite _status_run. cbv zeta.
  destruct (host_run (status_args cfg label) (world s)) as [[msg|c] w].
  - reflexivity.
  - cbn [fst]. unfold status_outcome.
    destruct (returncode c =? 0)%Z; [|reflexivity].
    destruct (Spec.last_opt (Spec.vmstate_values (stdout c))) as [v|];
      [|reflexivity].
    destruct (Py.truthy v); reflexivity.
Qed.

(** C8: the status operation is not confined to the five machine states.
    Whenever the query exits with zero and the last status line of its
    output is [VMState=] followed by a quoted, non-empty value [X], the
    operation returns the lowercased [X], whatever it is, and the last
    thing it does is to report that value to the registry. *)
Theorem status_returns_any_value (label : string) (s : st W)
    (c : completed) (w : W) (before after : list string) (X : string) :
  host_run (status_args cfg label) (world s) = (inr c, w) ->
  returncode c = 0%Z ->
  Py.split Py.newline (stdout c) = (before ++ [vmstate_line X] ++ after)%list ->
  Spec.vmstate_values_of_lines after = [] ->
  Py.contains Py.dquote X = false ->
  Py.truthy (Py.lower X) = true ->
  fst (_status cfg label s) = Ok (Py.lower X)
  /\ exists (w' : W) (tr : list event),
       snd (_status cfg label s)
       = St (host_set_status label (Py.lower X) w')
           (tr ++ [EvSetStatus label (Py.lower X)]).
Proof.
  intros Hrun Hrc Hlines Hafter HX Hne.
  assert (Hres : fst (_status cfg label s) = Ok (Py.lower X)).
  { rewrite _status_result, Hrun. cbn [fst]. unfold status_outcome.
    rewrite Hrc. cbn [Z.eqb]. unfold Spec.vmstate_values.
    rewrite Hlines, !vmstate_values_app, Hafter, app_nil_r.
    unfold Spec.vmstate_values_of_lines at 2. cbn [filter].
    rewrite (vmstate_line_matches X HX). cbn [map].
    rewrite (vmstate_line_value X HX), last_opt_snoc.
    now rewrite Hne. }
  split; [exact Hres|].
  now apply _status_reported.
Qed.

(** C4: when the fresh status of a label is [running], [start] raises
    the error of an already started machine, and the status query is the
    only command launched during the call. *)
Theorem start_running_is_refused (label : string) (t : task) (s : st W) :
  fst (_status cfg label s) = Ok RUNNING ->
  fst (start cfg label t s)
  = Raise (CuckooMachineError
             ("Trying to start an already started vm " ++ label))
  /\ commands (trace (snd (start cfg label t s)))
     = (commands (trace s) ++ [status_args cfg label])%list.
Proof.
  intros Hst.
  set (s1 := St (world s)
               (trace s ++ [EvLog DEBUG ("Starting vm " ++ label) []])).
  assert (Hrun : start cfg label t s
                 = (Raise (CuckooMachineError
                             ("Trying to start an already started vm "
                              ++ label)),
                    snd (_status cfg label s1))).
  { pose proof (_status_result_trace cfg label s (trace s1)) as Hres.
    change (St (world s) (trace s1)) with s1 in Hres.
    unfold start. unfold bind at 1. unfold log at 1, emit.
    cbn [world trace]. fold s1. unfold bind at 1.
    destruct (_status cfg label s1) as [r s2]. cbn [fst snd] in *.
    rewrite Hst in Hres. subst r. reflexivity. }
  rewrite Hrun. cbn [fst snd]. split; [reflexivity|].
  rewrite _status_commands. subst s1. cbn [trace].
  rewrite commands_app. cbn. now rewrite app_nil_r.
Qed.

(** C5: when the fresh status of a label is [poweroff] or [aborted],
    [stop] raises the error of an already stopped machine, and the
    status query is the only command launched during the call. *)
Theorem stop_stopped_is_refused (fuel : nat) (label status : string)
    (s : st W) :
  fst (_status cfg label s) = Ok status ->
  status = POWEROFF \/ status = ABORTED ->
  fst (stop cfg fuel label s)
  = Raise (CuckooMachineError
             ("Trying to stop an already stopped vm " ++ label))
  /\ commands (trace (snd (stop cfg fuel label s)))
     = (commands (trace s) ++ [status_args cfg label])%list.
Proof.
  intros Hst Hin.
  set (s1 := St (world s)
               (trace s ++ [EvLog DEBUG ("Stopping vm " ++ label) []])).
  assert (Hrun : stop cfg fuel label s
                 = (Raise (CuckooMachineError
                             ("Trying to stop an already stopped vm "
                              ++ label)),
                    snd (_status cfg label s1))).
  { pose proof (_status_result_trace cfg label s (trace s1)) as Hres.
    change (St (world s) (trace s1)) with s1 in Hres.
    assert (Hmem : Py.mem status [POWEROFF; ABORTED] = true)
      by (destruct Hin as [-> | ->]; reflexivity).
    unfold stop. unfold bind at 1. unfold log at 1, emit.
    cbn [world trace]. fold s1. unfold bind at 1.
    destruct (_status cfg label s1) as [r s2]. cbn [fst snd] in *.
    rewrite Hst in Hres. subst r. now rewrite Hmem. }
  rewrite Hrun. cbn [fst snd]. split; [reflexivity|].
  rewrite _status_commands. subst s1. cbn [trace].
  rewrite commands_app. cbn. now rewrite app_nil_r.
Qed.

End StatusClaims.

(** ** Computations only add to the trace *)

Section Extension.

Context {W : Type} {host : Host W}.
Variable cfg : config.

Lemma extends_ret {A : Type} (a : A) : extends (W := W) (ret a).
Proof.
  intros s. exists []. cbn. now rewrite app_nil_r.
Qed.

Lemma extends_raise {A : Type} (e : exn) : extends (W := W) (A := A) (raise e).
Proof.
  intros s. exists []. cbn. now rewrite app_nil_r.
Qed.

Lemma extends_log (lvl : level) (fmt : string) (args : list logarg) :
  extends (log (W := W) lvl fmt args).
Proof.
  intros s. eexists. reflexivity.
Qed.

Lemma extends_bind {A B : Type} (m : M W A) (k : A -> M W B) :
  extends m -> (forall a, extends (k a)) -> extends (bind m k).
Proof.
  intros Hm Hk s. unfold bind. destruct (Hm s) as [evs1 H1].
  destruct (m s) as [[a|e|] s']; cbn [snd] in *.
  - destruct (Hk a s') as [evs2 H2]. exists (evs1 ++ evs2)%list.
    now rewrite H2, H1, app_assoc.
  - now exists evs1.
  - now exists evs1.
Qed.

Lemma extends_try {A : Type} (m : M W A) (handler : exn -> option (M W A)) :
  extends m ->
  (forall e h, handler e = Some h -> extends h) ->
  extends (try_except m handler).
Proof.
  intros Hm Hh s. unfold try_except. destruct (Hm s) as [evs1 H1].
  destruct (m s) as [[a|e|] s']; cbn [snd] in *.
  - now exists evs1.
  - destruct (handler e) as [h|] eqn:E.
    + destruct (Hh e h E s') as [evs2 H2]. exists (evs1 ++ evs2)%list.
      now rewrite H2, H1, app_assoc.
    + now exists evs1.
  - now exists evs1.
Qed.

Lemma extends_on_OSError {A : Type} (h : string -> M W A) :
  (forall msg, extends (h msg)) ->
  forall e g, on_OSError h e = Some g -> extends g.
Proof.
  intros Hh e g. destruct e; cbn; try discriminate. intros [= <-]. apply Hh.
Qed.

Lemma extends_on_CalledProcessError {A : Type} (h : exn -> M W A) :
  (forall e, extends (h e)) ->
  forall e g, on_CalledProcessError h e = Some g -> extends g.
Proof.
  intros Hh e g. destruct e; cbn; try discriminate. intros [= <-]. apply Hh.
Qed.

Lemma begins_popen_run (args : list string) :
  begins (EvExec args) (popen_run args).
Proof.
  intros s. exists []. unfold popen_run.
  now destruct (host_run args (world s)) as [[msg|c] w].
Qed.

Lemma begins_extends {A : Type} (e : event) (m : M W A) :
  begins e m -> extends m.
Proof.
  intros H s. destruct (H s) as [evs He]. now exists (e :: evs).
Qed.

Lemma begins_bind {A B : Type} (e : event) (m : M W A) (k : A -> M W B) :
  begins e m -> (forall a, extends (k a)) -> begins e (bind m k).
Proof.
  intros Hm Hk s. unfold bind. destruct (Hm s) as [evs1 H1].
  destruct (m s) as [[a|x|] s']; cbn [snd] in *.
  - destruct (Hk a s') as [evs2 H2]. exists (evs1 ++ evs2)%list.
    rewrite H2, H1, <- app_assoc. reflexivity.
  - now exists evs1.
  - now exists evs1.
Qed.

Lemma begins_try {A : Type} (e : event) (m : M W A)
    (handler : exn -> option (M W A)) :
  begins e m ->
  (forall x h, handler x = Some h -> extends h) ->
  begins e (try_except m handler).
Proof.
  intros Hm Hh s. unfold try_except. destruct (Hm s) as [evs1 H1].
  destruct (m s) as [[a|x|] s']; cbn [snd] in *.
  - now exists evs1.
  - destruct (handler x) as [h|] eqn:E.
    + destruct (Hh x h E s') as [evs2 H2]. exists (evs1 ++ evs2)%list.
      rewrite H2, H1, <- app_assoc. reflexivity.
    + now exists evs1.
  - now exists evs1.
Qed.

Lemma extends_popen_run (args : list string) : extends (popen_run args).
Proof.
  exact (begins_extends _ _ (begins_popen_run args)).
Qed.

Lemma extends_wait_status (label : string) (states : list string) :
  extends (_wait_status label states).
Proof.
  intros s. eexists. unfold _wait_status.
  destruct (host_wait_status label states (world s)) as [[msg|] w];
    reflexivity.
Qed.

Ltac extends_step :=
  match goal with
  | |- extends (bind _ _) => apply extends_bind; [|intros ?]
  | |- extends (try_except _ (on_OSError _)) =>
      apply extends_try; [|apply extends_on_OSError; intros ?]
  | |- extends (try_except _ (on_CalledProcessError _)) =>
      apply extends_try; [|apply extends_on_CalledProcessError; intros ?]
  | |- extends (if ?b then _ else _) => destruct b
  | |- extends (ret _) => apply extends_ret
  | |- extends (raise _) => apply extends_raise
  | |- extends (log _ _ _) => apply extends_log
  | |- extends (popen_run _) => apply extends_popen_run
  | |- extends (_wait_status _ _) => apply extends_wait_status
  end.

Lemma extends_check_call (args : list string) : extends (check_call args).
Proof.
  unfold check_call. repeat extends_step.
Qed.

Lemma extends_dump_pcap (label : string) (t : task) :
  extends (dump_pcap cfg label t).
Proof.
  unfold dump_pcap, pcap_step.
  repeat (extends_step || apply extends_check_call).
Qed.

(** The arguments [start] builds for the snapshot command are those of
    the table of commands. *)
Lemma restore_args_run (label : string) (m : machine) (s : st W) :
  restore_args cfg label m s
  = (Ok (snapshot_args cfg label m),
     St (world s) (trace s ++ [restore_log label m])).
Proof.
  unfold restore_args, snapshot_args, restore_log.
  destruct (snapshot m) as [[|a sn]|]; reflexivity.
Qed.

(** What [start] does once the status check has let it pass begins with
    the launch of the snapshot command. *)
Lemma start_body_begins (label : string) (t : task) (m : machine) :
  begins (EvExec (snapshot_args cfg label m))
    (try_except
       (c <- popen_run (snapshot_args cfg label m) ;;
        if negb (returncode c =? 0)%Z then
          raise (CuckooMachineError
            "VBoxManage exited with error trying to restore the machine's snapshot")
        else ret tt)
       (on_OSError (fun msg =>
          raise (CuckooMachineError
                   ("VBoxManage failed restoring the machine: " ++ msg)))) ;;
     _wait_status label [SAVED] ;;
     try_except
       (c <- popen_run [virtualbox_path cfg; "startvm"; label;
                        "--type"; virtualbox_mode cfg] ;;
        if Py.truthy (stderr c) then raise (OSError (stderr c)) else ret tt)
       (on_OSError (fun msg =>
          raise (CuckooMachineError
                   ("VBoxManage failed starting the machine in "
                    ++ Py.upper (virtualbox_mode cfg) ++ " mode: " ++ msg)))) ;;
     _wait_status label [RUNNING] ;;
     if Py.mem "nictrace" (options m) then dump_pcap cfg label t else ret tt).
Proof.
  apply begins_bind.
  - apply begins_try.
    + apply begins_bind; [apply begins_popen_run|].
      intros c. repeat extends_step.
    + apply extends_on_OSError. intros msg. apply extends_raise.
  - intros _. repeat (extends_step || apply extends_dump_pcap).
Qed.

Lemma _status_world_trace (label : string) (s : st W) (tr : list event) :
  world (snd (_status cfg label (St (world s) tr)))
  = world (snd (_status cfg label s)).
Proof.
  rewrite !_status_run. cbv zeta. cbn [world].
  destruct (host_run _ (world s)) as [[msg|c] w]; [reflexivity|].
  destruct (returncode c =? 0)%Z; [|reflexivity].
  now destruct (status_outcome label (inr c)).
Qed.

End Extension.

(** ** Claims on [start], [dump_pcap], [_list] and [dump_memory] *)

Section ListFacts.

Context {W : Type} {host : Host W}.

Lemma labels_of_lines_app (l1 l2 : list string) :
  Spec.labels_of_lines (l1 ++ l2)
  = (Spec.labels_of_lines l1 ++ Spec.labels_of_lines l2)%list.
Proof.
  unfold Spec.labels_of_lines. now rewrite !filter_app, map_app, filter_app.
Qed.

(** The listing loop never fails, and it collects the labels the
    specification describes. *)
Lemma list_loop_result (lines : list string) :
  forall (machines : list string) (s : st W),
    fst (list_loop lines machines s)
    = Ok (machines ++ Spec.labels_of_lines lines)%list.
Proof.
  unfold Spec.labels_of_lines.
  induction lines as [|line rest IH]; intros machines s.
  - cbn. now rewrite app_nil_r.
  - cbn [list_loop filter].
    destruct (Py.contains Py.dquote line) eqn:E; cbn [negb]; [|apply IH].
    unfold bind at 1, index. rewrite (split_index1 line E).
    unfold ret at 1. cbn [map filter].
    destruct (String.eqb (Spec.first_quoted line) "<inaccessible>");
      cbn [negb].
    + unfold bind, log, emit. apply IH.
    + rewrite IH, <- app_assoc. reflexivity.
Qed.

End ListFacts.

Section OperationClaims.

Context {W : Type} {host : Host W}.
Variable cfg : config.

(** C10: when the fresh status of a label is the sentinel [ERROR], the
    check of [start] lets the call pass: right after the status query
    the command that restores the snapshot of the machine is launched. *)
Theorem start_proceeds_on_error_status (label : string) (t : task)
    (s : st W) :
  fst (_status cfg label s) = Ok ERROR ->
  exists rest : list (list string),
    commands (trace (snd (start cfg label t s)))
    = (commands (trace s)
       ++ [status_args cfg label;
           snapshot_args cfg label
             (host_view_machine label (world (snd (_status cfg label s))))]
       ++ rest)%list.
Proof.
  intros Hst.
  set (s1 := St (world s)
               (trace s ++ [EvLog DEBUG ("Starting vm " ++ label) []])).
  pose proof (_status_result_trace cfg label s (trace s1)) as Hres.
  pose proof (_status_world_trace cfg label s (trace s1)) as Hw.
  pose proof (_status_commands cfg label s1) as Hcmd.
  change (St (world s) (trace s1)) with s1 in Hres, Hw.
  rewrite Hst in Hres. rewrite <- Hw. clear Hw Hst.
  unfold start. unfold bind at 1. unfold log at 1, emit.
  cbn [world trace]. fold s1. unfold bind at 1.
  destruct (_status cfg label s1) as [r s2]. cbn [fst snd] in *.
  subst r. change (String.eqb ERROR RUNNING) with false. cbv iota.
  unfold bind at 1, view_machine_by_label. cbn [world trace].
  set (m := host_view_machine label (world s2)).
  unfold bind at 1. rewrite restore_args_run. cbn [world trace].
  destruct (start_body_begins cfg label t m
              (St (world s2)
                 ((trace s2 ++ [EvLookup label]) ++ [restore_log label m])))
    as [evs Hevs].
  cbn [trace] in Hevs. rewrite Hevs.
  exists (commands evs).
  assert (Hlog : commands [restore_log label m] = []).
  { unfold restore_log. now destruct (snapshot m) as [[|a sn]|]. }
  rewrite !commands_app, Hcmd, Hlog. subst s1. cbn [trace].
  rewrite commands_app. cbn [commands app].
  rewrite !app_nil_r, <- app_assoc. reflexivity.
Qed.

(** C6: whenever the listing command can be launched, [_list] returns
    the first quoted substring of every line of the output that holds a
    quote, in the order of the lines, without the lines that hold no
    quote and without the label [<inaccessible>]. *)
Theorem list_returns_first_quoted_labels (s : st W) (c : completed)
    (w : W) :
  host_run (list_args cfg) (world s) = (inr c, w) ->
  fst (_list cfg s) = Ok (Spec.labels (stdout c)).
Proof.
  intros Hrun. unfold _list, try_except, popen_run. unfold bind at 1.
  unfold list_args in Hrun. rewrite Hrun.
  apply (list_loop_result (Py.split Py.newline (stdout c)) []).
Qed.

(** C9, as the code has it: a line of the listing that holds exactly one
    quote is a candidate like any other, and its label is all the text
    that follows the quote; the label is returned in its place unless it
    is the reserved label [<inaccessible>]. *)
Theorem single_quote_line_is_listed (s : st W) (c : completed) (w : W)
    (before after : list string) (pre rest : string) :
  host_run (list_args cfg) (world s) = (inr c, w) ->
  Py.split Py.newline (stdout c)
  = (before ++ [(pre ++ String Py.dquote rest)%string] ++ after)%list ->
  Py.contains Py.dquote pre = false ->
  Py.contains Py.dquote rest = false ->
  rest <> "<inaccessible>" ->
  fst (_list cfg s)
  = Ok (Spec.labels_of_lines before ++ [rest]
        ++ Spec.labels_of_lines after)%list.
Proof.
  intros Hrun Hlines Hpre Hrest Hres.
  unfold _list, try_except, popen_run. unfold bind at 1.
  unfold list_args in Hrun. rewrite Hrun.
  rewrite (list_loop_result (Py.split Py.newline (stdout c)) []).
  rewrite Hlines, !labels_of_lines_app. cbn [app]. do 3 f_equal.
  unfold Spec.labels_of_lines at 1. cbn [filter].
  rewrite contains_app. cbn [Py.contains].
  rewrite Ascii.eqb_refl, orb_true_r. cbn [map filter].
  rewrite (first_quoted_single pre rest Hpre Hrest).
  apply String.eqb_neq in Hres. now rewrite Hres.
Qed.

(** C7: once the version text is captured, the memory dump is taken with
    [dumpvmcore] if and only if the first character of the text is
    [5], and with [dumpguestcore] otherwise. *)
Theorem dump_memory_dispatch (label path : string) (s : st W)
    (c : completed) (w : W) :
  host_run (version_args cfg) (world s) = (inr c, w) ->
  commands (trace (snd (dump_memory cfg label path s)))
  = (commands (trace s)
     ++ [version_args cfg;
         debugvm_args cfg label (dumpcmd_of (stdout c)) path])%list
  /\ (dumpcmd_of (stdout c) = "dumpvmcore"
      <-> exists rest, stdout c = String "5" rest)
  /\ (dumpcmd_of (stdout c) = "dumpguestcore"
      <-> ~ exists rest, stdout c = String "5" rest).
Proof.
  intros Hrun. split.
  - unfold dump_memory, try_except, popen_run, bind, log, emit, ret.
    unfold version_args in Hrun. cbn [world trace]. rewrite Hrun.
    destruct (negb (returncode c =? 0)%Z); cbn [world trace];
      destruct (host_run _ w) as [[msg|c2] w2]; cbn [on_OSError raise snd trace];
      rewrite !commands_app; cbn; now rewrite ?app_nil_r, <- ?app_assoc.
  - unfold dumpcmd_of.
    pose proof (startswith_char "5" (stdout c)) as Hs.
    destruct (Py.startswith "5" (stdout c)).
    + split; split; try reflexivity; try discriminate.
      * intros _. now apply Hs.
      * intros Hn. exfalso. apply Hn. now apply Hs.
    + split; split; try reflexivity; try discriminate.
      * intros He. apply Hs in He. discriminate.
      * intros _ He. apply Hs in He. discriminate.
Qed.

End OperationClaims.

(** ** The polling loop of [stop] *)

Section StopFacts.

Context {W : Type} {host : Host W}.
Variable cfg : config.

(** While the timeout is not reached, every poll that finds the process
    alive is followed by a sleep of one second. *)
Lemma poll_loop_waits (label : string) (p : proc) (T : Z) (n : nat) :
  forall (k : Z) (fuel : nat) (w w1 : W) (tr : list event),
    ((0 < n)%nat -> (k + Z.of_nat n <= T)%Z) ->
    alive_rounds n p w = Some w1 ->
    poll_loop (n + fuel) label p T k (St w tr)
    = poll_loop fuel label p T (k + Z.of_nat n)%Z
        (St w1 (tr ++ rounds n wait_round)).
Proof.
  induction n as [|n IH]; intros k fuel w w1 tr Hk Halive.
  - cbn in Halive. injection Halive as <-. cbn [Nat.add rounds].
    now rewrite app_nil_r, Z.add_0_r.
  - cbn [alive_rounds] in Halive.
    destruct (host_poll p w) as [[rc|] w'] eqn:Hpoll; [discriminate|].
    cbn [Nat.add poll_loop]. unfold bind at 1, poll at 1.
    cbn [world trace]. rewrite Hpoll.
    assert (Hlt : (k <? T)%Z = true) by (apply Z.ltb_lt; lia).
    rewrite Hlt. unfold bind at 1, sleep1. cbn [world trace].
    rewrite (IH (k + 1)%Z fuel (host_sleep w') w1) by (assumption || lia).
    replace (k + Z.of_nat (S n))%Z with (k + 1 + Z.of_nat n)%Z by lia.
    unfold wait_round. cbn [rounds app]. now rewrite <- !app_assoc.
Qed.

(** Once the timeout is reached, every poll that finds the process alive
    is followed by a signal and by another poll; the loop is left only
    when a poll sees the process exited. *)
Lemma poll_loop_kills (label : string) (p : proc) (T k : Z) (m : nat) :
  forall (fuel : nat) (w w2 : W) (rc : Z) (tr : list event),
    (T <= k)%Z ->
    signalled_rounds m p w = Some (rc, w2) ->
    poll_loop (S m + fuel) label p T k (St w tr)
    = (Ok (rc, k),
       St w2 (tr ++ rounds m (kill_round label) ++ [EvPoll (Some rc)])).
Proof.
  induction m as [|m IH]; intros fuel w w2 rc tr Hk Hkill.
  - cbn [signalled_rounds] in Hkill.
    destruct (host_poll p w) as [[rc'|] w'] eqn:Hpoll; [|discriminate].
    injection Hkill as <- <-.
    cbn [Nat.add poll_loop]. unfold bind, poll. cbn [world trace].
    now rewrite Hpoll.
  - cbn [signalled_rounds] in Hkill.
    destruct (host_poll p w) as [[rc'|] w'] eqn:Hpoll; [discriminate|].
    change (S (S m) + fuel)%nat with (S (S m + fuel)).
    cbn [poll_loop]. unfold bind at 1, poll at 1.
    cbn [world trace]. rewrite Hpoll.
    assert (Hge : (k <? T)%Z = false) by (apply Z.ltb_ge; lia).
    rewrite Hge. unfold bind at 1, log at 1, emit. cbn [world trace].
    unfold bind at 1, terminate at 1. cbn [world trace].
    rewrite (IH fuel (host_terminate p w') w2 rc) by assumption.
    unfold kill_round. cbn [rounds app]. now rewrite <- !app_assoc.
Qed.

(** The loop of a process that outlives the timeout and is seen exited
    [m] polls after the first signal. *)
Lemma poll_loop_timeout (label : string) (p : proc) (T : Z) (m fuel : nat)
    (w w1 w2 : W) (rc : Z) (tr : list event) :
  alive_rounds (Z.to_nat T) p w = Some w1 ->
  signalled_rounds m p w1 = Some (rc, w2) ->
  (Z.to_nat T + m < fuel)%nat ->
  poll_loop fuel label p T 0%Z (St w tr)
  = (Ok (rc, Z.max 0 T),
     St w2 (tr ++ timeout_trace label (Z.to_nat T) m rc)).
Proof.
  intros Halive Hkill Hfuel.
  replace fuel
    with (Z.to_nat T + (S m + (fuel - Z.to_nat T - S m)))%nat by lia.
  rewrite (poll_loop_waits label p T (Z.to_nat T) 0%Z _ w w1)
    by (assumption || lia).
  rewrite (poll_loop_kills label p T _ m _ w1 w2 rc)
    by (assumption || lia).
  unfold timeout_trace. rewrite <- !app_assoc.
  do 3 f_equal. lia.
Qed.

End StopFacts.

Section StopClaims.

Context {W : Type} {host : Host W}.
Variable cfg : config.

(** C2, as the code has it: let the machine be neither powered off nor
    aborted, let the poweroff process be found alive by each of the [T]
    polls that are one second apart and by the poll after them, and let
    it be seen exited [m] polls after the first signal.  Then [stop]
    signals the process once after each of the [m + 1] polls that find
    it alive from the timeout on (once only when [m] is 0) and polls
    again after every signal, no exception comes from the timeout, and
    the call ends with the wait for one of [poweroff], [aborted] and
    [saved], whose result is the result of [stop]. *)
Theorem stop_timeout_signals_until_exit (fuel : nat) (label status : string)
    (s : st W) (p : proc) (w0 w1 w2 : W) (m : nat) (rc : Z) :
  fst (_status cfg label s) = Ok status ->
  status <> POWEROFF ->
  status <> ABORTED ->
  host_spawn (poweroff_args cfg label) (world (snd (_status cfg label s)))
  = (inr p, w0) ->
  alive_rounds (Z.to_nat (timeouts_vm_state cfg)) p w0 = Some w1 ->
  signalled_rounds (S m) p w1 = Some (rc, w2) ->
  (Z.to_nat (timeouts_vm_state cfg) + S m < fuel)%nat ->
  (exists before : list event,
     trace (snd (stop cfg fuel label s))
     = (before
        ++ EvExec (poweroff_args cfg label)
           :: timeout_trace label (Z.to_nat (timeouts_vm_state cfg)) (S m) rc
        ++ [EvWaitStatus label [POWEROFF; ABORTED; SAVED]])%list
     /\ terminations before = terminations (trace s))
  /\ terminations (trace (snd (stop cfg fuel label s)))
     = (terminations (trace s) + S m)%nat
  /\ fst (stop cfg fuel label s)
     = match fst (host_wait_status label [POWEROFF; ABORTED; SAVED] w2) with
       | Some msg => Raise (CuckooMachineError msg)
       | None => Ok tt
       end.
Proof.
  intros Hst Hp Ha Hspawn Halive Hkill Hfuel.
  set (T := timeouts_vm_state cfg) in *.
  set (s0 := St (world s)
               (trace s ++ [EvLog DEBUG ("Stopping vm " ++ label) []])).
  pose proof (_status_result_trace cfg label s (trace s0)) as Hres.
  pose proof (_status_world_trace cfg label s (trace s0)) as Hw.
  pose proof (_status_terminations cfg label s0) as Hterm.
  change (St (world s) (trace s0)) with s0 in Hres, Hw.
  rewrite Hst in Hres. rewrite <- Hw in Hspawn. clear Hw Hst.
  assert (Hmem : Py.mem status [POWEROFF; ABORTED] = false).
  { cbn. apply String.eqb_neq in Hp, Ha. now rewrite Hp, Ha. }
  assert (Hrun :
    stop cfg fuel label s
    = (match fst (host_wait_status label [POWEROFF; ABORTED; SAVED] w2) with
       | Some msg => Raise (CuckooMachineError msg)
       | None => Ok tt
       end,
       St (snd (host_wait_status label [POWEROFF; ABORTED; SAVED] w2))
         (trace (snd (_status cfg label s0))
          ++ EvExec (poweroff_args cfg label)
             :: timeout_trace label (Z.to_nat T) (S m) rc
          ++ [EvWaitStatus label [POWEROFF; ABORTED; SAVED]]))).
  { unfold stop. unfold bind at 1. unfold log at 1, emit.
    cbn [world trace]. fold s0. unfold bind at 1.
    destruct (_status cfg label s0) as [r s1]. cbn [fst snd] in *.
    subst r. rewrite Hmem. fold T.
    unfold bind at 1, try_except. unfold bind at 1, popen at 1.
    unfold poweroff_args in Hspawn. rewrite Hspawn.
    unfold bind at 1.
    rewrite (poll_loop_timeout label p T (S m) fuel w0 w1 w2 rc)
      by assumption.
    assert (Hge : (Z.max 0 T <? T)%Z = false) by (apply Z.ltb_ge; lia).
    rewrite Hge, andb_false_r. unfold ret at 1.
    unfold _wait_status. cbn [world trace].
    destruct (host_wait_status label [POWEROFF; ABORTED; SAVED] w2)
      as [[msg|] w3]; cbn [fst snd]; unfold poweroff_args;
      rewrite <- !app_assoc; reflexivity. }
  rewrite Hrun. cbn [fst snd trace].
  assert (Hbefore : terminations (trace (snd (_status cfg label s0)))
                    = terminations (trace s)).
  { rewrite Hterm. subst s0. cbn [trace]. rewrite terminations_app. cbn. lia. }
  split; [|split].
  - eexists. split; [reflexivity|exact Hbefore].
  - rewrite terminations_app, Hbefore. cbn [terminations].
    rewrite terminations_app, terminations_timeout_trace. cbn. lia.
  - reflexivity.
Qed.

End StopClaims.

(** ** The claims on the simulated host *)

(** Without a status line and with exit code 0, [_status] raises. *)
Lemma status_without_state_line_raises :
  Spec.vmstate_values Sim.dump_without_state = []
  /\ fst (_status (Sim.cfg 3) "cuckoo1"
            (Sim.init (Sim.make (Sim.prints Sim.dump_without_state)
                         Sim.prompt)))
     = Raise (CuckooMachineError "Unable to get status for cuckoo1").
Proof.
  split; reflexivity.
Qed.

(** The status [paused] is returned and reported, and it is none of the
    five machine states. *)
Lemma status_returns_paused :
  Py.split Py.newline Sim.dump_paused
  = ["name=" ++ Py.quoted "cuckoo1"; vmstate_line "paused";
     "VMStateChangeTime=" ++ Py.quoted "2016-01-01T00:00:00"]
  /\ ~ In "paused" Spec.machine_states
  /\ fst (_status (Sim.cfg 3) "cuckoo1"
            (Sim.init (Sim.make (Sim.prints Sim.dump_paused) Sim.prompt)))
     = Ok "paused"
  /\ exists (w' : Sim.world) (tr : list event),
       snd (_status (Sim.cfg 3) "cuckoo1"
              (Sim.init (Sim.make (Sim.prints Sim.dump_paused) Sim.prompt)))
       = St (host_set_status "cuckoo1" "paused" w')
           (tr ++ [EvSetStatus "cuckoo1" "paused"]).
Proof.
  split; [reflexivity|]. split.
  - unfold Spec.machine_states, SAVED, RUNNING, POWEROFF, ABORTED, ERROR.
    intros [H|[H|[H|[H|[H|[]]]]]]; discriminate H.
  - exact (status_returns_any_value (Sim.cfg 3) "cuckoo1"
             (Sim.init (Sim.make (Sim.prints Sim.dump_paused) Sim.prompt))
             (Completed 0%Z Sim.dump_paused "")
             (Sim.make (Sim.prints Sim.dump_paused) Sim.prompt)
             ["name=" ++ Py.quoted "cuckoo1"]
             ["VMStateChangeTime=" ++ Py.quoted "2016-01-01T00:00:00"]
             "paused"
             eq_refl eq_refl eq_refl eq_refl eq_refl eq_refl).
Defined.

(** [start] on a running machine. *)
Lemma start_running_is_refused_on_cuckoo1 :
  fst (_status (Sim.cfg 3) "cuckoo1" (Sim.machine_in "running" Sim.prompt))
  = Ok RUNNING
  /\ fst (start (Sim.cfg 3) "cuckoo1" (Task 7)
            (Sim.machine_in "running" Sim.prompt))
     = Raise (CuckooMachineError
                "Trying to start an already started vm cuckoo1")
  /\ commands (trace (snd (start (Sim.cfg 3) "cuckoo1" (Task 7)
                             (Sim.machine_in "running" Sim.prompt))))
     = [["VBoxManage"; "showvminfo"; "cuckoo1"; "--machinereadable"]].
Proof.
  split; [reflexivity|].
  exact (start_running_is_refused (Sim.cfg 3) "cuckoo1" (Task 7)
           (Sim.machine_in "running" Sim.prompt) eq_refl).
Defined.

(** [stop] on an aborted machine. *)
Lemma stop_stopped_is_refused_on_cuckoo1 :
  fst (_status (Sim.cfg 3) "cuckoo1" (Sim.machine_in "Aborted" Sim.prompt))
  = Ok ABORTED
  /\ fst (stop (Sim.cfg 3) 10 "cuckoo1" (Sim.machine_in "Aborted" Sim.prompt))
     = Raise (CuckooMachineError
                "Trying to stop an already stopped vm cuckoo1")
  /\ commands (trace (snd (stop (Sim.cfg 3) 10 "cuckoo1"
                             (Sim.machine_in "Aborted" Sim.prompt))))
     = [["VBoxManage"; "showvminfo"; "cuckoo1"; "--machinereadable"]].
Proof.
  split; [reflexivity|].
  exact (stop_stopped_is_refused (Sim.cfg 3) 10 "cuckoo1" ABORTED
           (Sim.machine_in "Aborted" Sim.prompt) eq_refl
           (or_intror eq_refl)).
Defined.

(** [start] when the status query is denied. *)
Lemma start_proceeds_when_status_is_denied :
  fst (_status (Sim.cfg 3) "cuckoo1" (Sim.init Sim.status_denied)) = Ok ERROR
  /\ exists rest : list (list string),
       commands (trace (snd (start (Sim.cfg 3) "cuckoo1" (Task 7)
                               (Sim.init Sim.status_denied))))
       = (["VBoxManage"; "showvminfo"; "cuckoo1"; "--machinereadable"]
          :: ["VBoxManage"; "snapshot"; "cuckoo1"; "restorecurrent"]
          :: rest)%list.
Proof.
  split; [reflexivity|].
  exact (start_proceeds_on_error_status (Sim.cfg 3) "cuckoo1" (Task 7)
           (Sim.init Sim.status_denied) eq_refl).
Defined.

(** C3: [dump_pcap] is to return normally whatever becomes of its
    commands.  It does not when a command cannot be launched: its two
    [except] clauses name [CalledProcessError] only, so the [OSError] of
    the launch, which every other method of the class catches, escapes
    to the caller.  Here the hypervisor binary is missing. *)
Lemma dump_pcap_raises_on_launch_failure :
  fst (dump_pcap (Sim.cfg 3) "cuckoo1" (Task 7) (Sim.init Sim.unlaunchable))
  = Raise (OSError "[Errno 2] No such file or directory").
Proof.
  reflexivity.
Qed.

(** The listing example. *)
Lemma list_returns_box1_box2 :
  Sim.run (list_args (Sim.cfg 3)) (Sim.make (Sim.prints Sim.inventory) Sim.prompt)
  = (Sim.prints Sim.inventory, Sim.make (Sim.prints Sim.inventory) Sim.prompt)
  /\ fst (_list (Sim.cfg 3)
            (Sim.init (Sim.make (Sim.prints Sim.inventory) Sim.prompt)))
     = Ok ["box1"; "box2"].
Proof.
  split; [reflexivity|].
  exact (list_returns_first_quoted_labels (Sim.cfg 3)
           (Sim.init (Sim.make (Sim.prints Sim.inventory) Sim.prompt))
           (Completed 0%Z Sim.inventory "")
           (Sim.make (Sim.prints Sim.inventory) Sim.prompt) eq_refl).
Defined.

(** A line with a single quote followed by the reserved label is
    skipped. *)
Lemma single_quote_reserved_label_is_skipped :
  Py.count Py.dquote Sim.unclosed_reserved = 1%nat
  /\ fst (_list (Sim.cfg 3)
            (Sim.init (Sim.make (Sim.prints Sim.unclosed_reserved)
                         Sim.prompt)))
     = Ok [].
Proof.
  split; reflexivity.
Qed.

(** A line with a single quote followed by another text is listed. *)
Lemma single_quote_line_is_listed_box2 :
  Py.count Py.dquote (String Py.dquote "box2 {uuid}") = 1%nat
  /\ "box2 {uuid}" <> "<inaccessible>"
  /\ fst (_list (Sim.cfg 3)
            (Sim.init (Sim.make (Sim.prints Sim.unclosed_listing)
                         Sim.prompt)))
     = Ok ["box1"; "box2 {uuid}"].
Proof.
  assert (Hne : "box2 {uuid}" <> "<inaccessible>") by discriminate.
  split; [reflexivity|]. split; [exact Hne|].
  exact (single_quote_line_is_listed (Sim.cfg 3)
           (Sim.init (Sim.make (Sim.prints Sim.unclosed_listing) Sim.prompt))
           (Completed 0%Z Sim.unclosed_listing "")
           (Sim.make (Sim.prints Sim.unclosed_listing) Sim.prompt)
           [Py.quoted "box1" ++ " {uuid}"] [] "" "box2 {uuid}"
           eq_refl eq_refl eq_refl eq_refl Hne).
Defined.

(** The two versions of the dispatch example. *)
Lemma dump_memory_dispatch_5_and_4 :
  commands (trace (snd (dump_memory (Sim.cfg 3) "cuckoo1" "/tmp/mem.dmp"
                          (Sim.init (Sim.make (Sim.prints "5.0.10")
                                       Sim.prompt)))))
  = [["VBoxManage"; "-v"];
     ["VBoxManage"; "debugvm"; "cuckoo1"; "dumpvmcore"; "--filename";
      "/tmp/mem.dmp"]]
  /\ commands (trace (snd (dump_memory (Sim.cfg 3) "cuckoo1" "/tmp/mem.dmp"
                             (Sim.init (Sim.make (Sim.prints "4.3.2")
                                          Sim.prompt)))))
     = [["VBoxManage"; "-v"];
        ["VBoxManage"; "debugvm"; "cuckoo1"; "dumpguestcore"; "--filename";
         "/tmp/mem.dmp"]].
Proof.
  split.
  - exact (proj1 (dump_memory_dispatch (Sim.cfg 3) "cuckoo1" "/tmp/mem.dmp"
                    (Sim.init (Sim.make (Sim.prints "5.0.10") Sim.prompt))
                    (Completed 0%Z "5.0.10" "")
                    (Sim.make (Sim.prints "5.0.10") Sim.prompt) eq_refl)).
  - exact (proj1 (dump_memory_dispatch (Sim.cfg 3) "cuckoo1" "/tmp/mem.dmp"
                    (Sim.init (Sim.make (Sim.prints "4.3.2") Sim.prompt))
                    (Completed 0%Z "4.3.2" "")
                    (Sim.make (Sim.prints "4.3.2") Sim.prompt) eq_refl)).
Defined.

(** A process that one poll still sees alive after the first signal is
    signalled twice, and polled twice after the first signal. *)
Lemma stop_signals_twice :
  alive_rounds 1 tt (Sim.make (Sim.prints (Sim.dump_of "running")) (Sim.stuck 1))
  <> None
  /\ terminations
       (trace (snd (stop (Sim.cfg 1) 10 "cuckoo1"
                      (Sim.machine_in "running" (Sim.stuck 1)))))
     = 2%nat
  /\ polls_after_terminate
       (trace (snd (stop (Sim.cfg 1) 10 "cuckoo1"
                      (Sim.machine_in "running" (Sim.stuck 1)))))
     = 2%nat
  /\ fst (stop (Sim.cfg 1) 10 "cuckoo1"
            (Sim.machine_in "running" (Sim.stuck 1)))
     = Ok tt.
Proof.
  split; [discriminate|]. split; [reflexivity|]. split; reflexivity.
Qed.

(** A process that the poll after the first signal sees exited is
    signalled once. *)
Lemma stop_timeout_signals_once :
  fst (_status (Sim.cfg 2) "cuckoo1" (Sim.machine_in "running" (Sim.stuck 0)))
  = Ok RUNNING
  /\ terminations
       (trace (snd (stop (Sim.cfg 2) 10 "cuckoo1"
                      (Sim.machine_in "running" (Sim.stuck 0)))))
     = 1%nat
  /\ fst (stop (Sim.cfg 2) 10 "cuckoo1"
            (Sim.machine_in "running" (Sim.stuck 0)))
     = Ok tt.
Proof.
  split; [reflexivity|].
  pose (w0 := Sim.report "cuckoo1" "running"
                (Sim.make (Sim.prints (Sim.dump_of "running")) (Sim.stuck 0))).
  assert (Hp : RUNNING <> POWEROFF) by discriminate.
  assert (Ha : RUNNING <> ABORTED) by discriminate.
  assert (Hfuel : (Z.to_nat (timeouts_vm_state (Sim.cfg 2)) + 1 < 10)%nat)
    by (cbn; lia).
  exact (proj2 (stop_timeout_signals_until_exit (Sim.cfg 2) 10 "cuckoo1"
                  RUNNING (Sim.machine_in "running" (Sim.stuck 0))
                  tt w0 w0 (Sim.terminate tt w0) 0 (-15)%Z
                  eq_refl Hp Ha eq_refl eq_refl eq_refl Hfuel)).
Defined.

(** The polling loop has no way out but a poll that sees the process
    exited: on a process that hangs and ignores the signal it uses up any
    amount of fuel. *)
Lemma poll_loop_needs_the_exit (label : string) (T : Z) (fuel : nat) :
  forall (k : Z) (w : Sim.world) (tr : list event),
    Sim.runs_for (Sim.child w) = None ->
    Sim.reaped_after (Sim.child w) = None ->
    fst (poll_loop fuel label tt T k (St w tr)) = OutOfFuel.
Proof.
  induction fuel as [|fuel IH]; intros k w tr Hrun Hreap; [reflexivity|].
  cbn [poll_loop]. unfold bind at 1, poll at 1. cbn [world trace].
  assert (Hpoll : host_poll tt w = (None, w)).
  { cbn. unfold Sim.poll. rewrite Hrun, Hreap.
    now destruct (Sim.signalled (Sim.child w)). }
  rewrite Hpoll. destruct (k <? T)%Z.
  - unfold bind at 1, sleep1. cbn [world trace].
    apply IH; cbn; unfold Sim.sleep; now rewrite Hrun.
  - unfold bind at 1, log at 1, emit. cbn [world trace].
    unfold bind at 1, terminate at 1. cbn [world trace].
    apply IH; cbn; assumption.
Qed.

(** So [stop] does not return on such a process, whatever the fuel: the
    final wait for the status is never reached. *)
Lemma stop_needs_the_exit (fuel : nat) :
  fst (stop (Sim.cfg 1) fuel "cuckoo1" (Sim.machine_in "running" Sim.deaf))
  = OutOfFuel.
Proof.
  unfold stop. unfold bind at 1. unfold log at 1, emit.
  unfold bind at 1.
  set (r := _status _ _ _). vm_compute in r. subst r. cbv iota beta.
  change (Py.mem "running" [POWEROFF; ABORTED]) with false. cbv iota.
  unfold bind at 1, try_except. unfold bind at 1, popen at 1.
  cbn [world trace host_spawn Sim.host Sim.spawn Sim.spawn_error].
  unfold bind at 1.
  match goal with
  | |- context [poll_loop fuel ?l ?p ?T ?k (St ?w ?tr)] =>
      pose proof (poll_loop_needs_the_exit l T fuel k w tr eq_refl eq_refl)
        as Hloop;
      destruct (poll_loop (host := Sim.host) fuel l p T k (St w tr)) as [[a|e|] s']
  end; cbn [fst] in Hloop; try discriminate Hloop.
  reflexivity.
Qed.

(** * Further properties of the module *)

(** ** Where the bodies of [start] and [stop] begin *)

Section Passing.

Context {W : Type} {host : Host W}.
Variable cfg : config.

Lemma steps_app (t1 t2 : list event) :
  steps (t1 ++ t2) = (steps t1 ++ steps t2)%list.
Proof.
  apply filter_app.
Qed.

Lemma sleeps_app (t1 t2 : list event) :
  sleeps (t1 ++ t2) = (sleeps t1 + sleeps t2)%nat.
Proof.
  unfold sleeps. now rewrite filter_app, length_app.
Qed.

Lemma reports_app (t1 t2 : list event) :
  reports (t1 ++ t2) = (reports t1 ++ reports t2)%list.
Proof.
  induction t1 as [|e t1 IH]; simpl; [reflexivity|].
  destruct e; simpl; now rewrite ?IH.
Qed.

Lemma steps_status_logs (label : string) (lines : list string) :
  steps (status_logs label lines) = [].
Proof.
  unfold status_logs.
  induction (filter is_vmstate_line lines) as [|l ls IH]; simpl; auto.
Qed.

Lemma sleeps_status_logs (label : string) (lines : list string) :
  sleeps (status_logs label lines) = 0%nat.
Proof.
  unfold status_logs, sleeps.
  induction (filter is_vmstate_line lines) as [|l ls IH]; simpl; auto.
Qed.

Lemma reports_status_logs (label : string) (lines : list string) :
  reports (status_logs label lines) = [].
Proof.
  unfold status_logs.
  induction (filter is_vmstate_line lines) as [|l ls IH]; simpl; auto.
Qed.

(** The status query adds one step, its command. *)
Lemma _status_steps (label : string) (s : st W) :
  steps (trace (snd (_status cfg label s)))
  = (steps (trace s) ++ [EvExec (status_args cfg label)])%list.
Proof.
  rewrite _status_run. cbv zeta.
  destruct (host_run _ (world s)) as [[msg|c] w].
  - cbn [snd trace]. rewrite !steps_app. cbn. now rewrite app_nil_r.
  - destruct (returncode c =? 0)%Z.
    + destruct (status_outcome label (inr c)); cbn [snd trace];
        rewrite !steps_app, steps_status_logs; cbn;
        now rewrite ?app_nil_r.
    + cbn [snd trace]. rewrite !steps_app. cbn. now rewrite app_nil_r.
Qed.

(** The status query does not sleep. *)
Lemma _status_sleeps (label : string) (s : st W) :
  sleeps (trace (snd (_status cfg label s))) = sleeps (trace s).
Proof.
  rewrite _status_run. cbv zeta.
  destruct (host_run _ (world s)) as [[msg|c] w].
  - cbn [snd trace]. rewrite !sleeps_app. cbn. lia.
  - destruct (returncode c =? 0)%Z.
    + destruct (status_outcome label (inr c)); cbn [snd trace];
        rewrite !sleeps_app, sleeps_status_logs; cbn; lia.
    + cbn [snd trace]. rewrite !sleeps_app. cbn. lia.
Qed.

Lemma after_status_world (what label : string) (s : st W) :
  world (after_status cfg what label s) = world (snd (_status cfg label s)).
Proof.
  unfold after_status.
  exact (_status_world_trace cfg label s _).
Qed.

Lemma after_status_steps (what label : string) (s : st W) :
  steps (trace (after_status cfg what label s))
  = (steps (trace s) ++ [EvExec (status_args cfg label)])%list.
Proof.
  unfold after_status. rewrite _status_steps. cbn [trace].
  rewrite steps_app. cbn. now rewrite app_nil_r.
Qed.

Lemma after_status_commands (what label : string) (s : st W) :
  commands (trace (after_status cfg what label s))
  = (commands (trace s) ++ [status_args cfg label])%list.
Proof.
  unfold after_status. rewrite _status_commands. cbn [trace].
  rewrite commands_app. cbn. now rewrite app_nil_r.
Qed.

Lemma after_status_terminations (what label : string) (s : st W) :
  terminations (trace (after_status cfg what label s))
  = terminations (trace s).
Proof.
  unfold after_status. rewrite _status_terminations. cbn [trace].
  rewrite terminations_app. cbn. lia.
Qed.

Lemma after_status_sleeps (what label : string) (s : st W) :
  sleeps (trace (after_status cfg what label s)) = sleeps (trace s).
Proof.
  unfold after_status. rewrite _status_sleeps. cbn [trace].
  rewrite sleeps_app. cbn. lia.
Qed.

(** [start] as a function of the result of its status query. *)
Lemma start_unfold (label : string) (t : task) (s : st W) :
  start cfg label t s
  = let s2 := after_status cfg "Starting vm " label s in
    match fst (_status cfg label s) with
    | Ok status =>
        if String.eqb status RUNNING then
          (Raise (CuckooMachineError
                    ("Trying to start an already started vm " ++ label)), s2)
        else
          let m := host_view_machine label (world s2) in
          start_body cfg label t m
            (St (world s2)
               (trace s2 ++ [EvLookup label; restore_log label m]))
    | Raise e => (Raise e, s2)
    | OutOfFuel => (OutOfFuel, s2)
    end.
Proof.
  cbv zeta. unfold after_status.
  set (s0 := St (world s)
               (trace s ++ [EvLog DEBUG ("Starting vm " ++ label) []])).
  pose proof (_status_result_trace cfg label s (trace s0)) as Hres.
  change (St (world s) (trace s0)) with s0 in Hres. rewrite <- Hres.
  unfold start. unfold bind at 1. unfold log at 1, emit.
  cbn [world trace]. fold s0. unfold bind at 1.
  destruct (_status cfg label s0) as [[status|e|] s2]; cbn [fst snd];
    try reflexivity.
  destruct (String.eqb status RUNNING); [reflexivity|].
  unfold bind at 1, view_machine_by_label. cbn [world trace].
  unfold bind at 1. rewrite restore_args_run. cbn [world trace].
  rewrite <- app_assoc. reflexivity.
Qed.

(** [stop] as a function of the result of its status query. *)
Lemma stop_unfold (fuel : nat) (label : string) (s : st W) :
  stop cfg fuel label s
  = let s2 := after_status cfg "Stopping vm " label s in
    match fst (_status cfg label s) with
    | Ok status =>
        if Py.mem status [POWEROFF; ABORTED] then
          (Raise (CuckooMachineError
                    ("Trying to stop an already stopped vm " ++ label)), s2)
        else stop_body cfg fuel label s2
    | Raise e => (Raise e, s2)
    | OutOfFuel => (OutOfFuel, s2)
    end.
Proof.
  cbv zeta. unfold after_status.
  set (s0 := St (world s)
               (trace s ++ [EvLog DEBUG ("Stopping vm " ++ label) []])).
  pose proof (_status_result_trace cfg label s (trace s0)) as Hres.
  change (St (world s) (trace s0)) with s0 in Hres. rewrite <- Hres.
  unfold stop. unfold bind at 1. unfold log at 1, emit.
  cbn [world trace]. fold s0. unfold bind at 1.
  destruct (_status cfg label s0) as [[status|e|] s2]; cbn [fst snd];
    try reflexivity.
  destruct (Py.mem status [POWEROFF; ABORTED]); reflexivity.
Qed.

End Passing.

(** ** [start] beyond its check *)

Section StartRuns.

Context {W : Type} {host : Host W}.
Variable cfg : config.

Lemma is_step_restore_log (label : string) (m : machine) :
  is_step (restore_log label m) = false.
Proof.
  unfold restore_log. now destruct (snapshot m) as [[|a sn]|].
Qed.

(** The run of [start] up to the wait for [running], when every step
    succeeds: what is left is the network trace, if the machine has the
    option. *)
Lemma start_in_order_run (label status : string) (t : task) (s : st W)
    (c1 c2 : completed) (w1 w2 w3 w4 : W) :
  fst (_status cfg label s) = Ok status ->
  status <> RUNNING ->
  host_run (snapshot_args cfg label (looked_up cfg label s))
    (status_world cfg label s) = (inr c1, w1) ->
  returncode c1 = 0%Z ->
  host_wait_status label [SAVED] w1 = (None, w2) ->
  host_run (startvm_args cfg label) w2 = (inr c2, w3) ->
  stderr c2 = "" ->
  host_wait_status label [RUNNING] w3 = (None, w4) ->
  start cfg label t s
  = (if Py.mem "nictrace" (options (looked_up cfg label s))
     then dump_pcap cfg label t
     else ret tt)
      (St w4
         (trace (after_status cfg "Starting vm " label s)
          ++ [EvLookup label;
              restore_log label (looked_up cfg label s);
              EvExec (snapshot_args cfg label (looked_up cfg label s));
              EvWaitStatus label [SAVED];
              EvExec (startvm_args cfg label);
              EvWaitStatus label [RUNNING]])).
Proof.
  intros Hst Hne Hrun1 Hrc1 Hwait1 Hrun2 Herr2 Hwait2.
  unfold looked_up, status_world in *.
  rewrite start_unfold. cbv zeta. rewrite Hst.
  apply String.eqb_neq in Hne. rewrite Hne.
  rewrite <- (after_status_world cfg "Starting vm " label s) in *.
  set (s2 := after_status cfg "Starting vm " label s) in *.
  set (m := host_view_machine label (world s2)) in *.
  unfold startvm_args in *.
  unfold start_body, bind, try_except, popen_run, _wait_status.
  cbn [world trace]. rewrite Hrun1, Hrc1. cbn [Z.eqb negb ret].
  cbn [world trace]. rewrite Hwait1. cbn [world trace].
  rewrite Hrun2, Herr2. cbn [Py.truthy String.eqb negb ret].
  cbn [world trace]. rewrite Hwait2.
  now rewrite <- !app_assoc.
Qed.

Lemma steps_start_in_order (label : string) (s : st W) (m : machine)
    (more : list event) :
  steps (trace (after_status cfg "Starting vm " label s)
         ++ [EvLookup label; restore_log label m;
             EvExec (snapshot_args cfg label m);
             EvWaitStatus label [SAVED];
             EvExec (startvm_args cfg label);
             EvWaitStatus label [RUNNING]]
         ++ more)
  = (steps (trace s)
     ++ [EvExec (status_args cfg label);
         EvExec (snapshot_args cfg label m);
         EvWaitStatus label [SAVED];
         EvExec (startvm_args cfg label);
         EvWaitStatus label [RUNNING]]
     ++ steps more)%list.
Proof.
  rewrite !steps_app, after_status_steps. cbn.
  rewrite is_step_restore_log. now rewrite <- !app_assoc.
Qed.

(** X1: [start] on a machine that is not running, when every step succeeds:
    the snapshot is restored, the status [saved] is awaited, the machine
    is started, the status [running] is awaited, in this order, and the
    call returns.  The exit code of the start command plays no part,
    only its standard error does. *)
Theorem start_steps_in_order (label status : string) (t : task) (s : st W)
    (c1 c2 : completed) (w1 w2 w3 w4 : W) :
  fst (_status cfg label s) = Ok status ->
  status <> RUNNING ->
  host_run (snapshot_args cfg label (looked_up cfg label s))
    (status_world cfg label s) = (inr c1, w1) ->
  returncode c1 = 0%Z ->
  host_wait_status label [SAVED] w1 = (None, w2) ->
  host_run (startvm_args cfg label) w2 = (inr c2, w3) ->
  stderr c2 = "" ->
  host_wait_status label [RUNNING] w3 = (None, w4) ->
  Py.mem "nictrace" (options (looked_up cfg label s)) = false ->
  fst (start cfg label t s) = Ok tt
  /\ world (snd (start cfg label t s)) = w4
  /\ steps (trace (snd (start cfg label t s)))
     = (steps (trace s)
        ++ [EvExec (status_args cfg label);
            EvExec (snapshot_args cfg label (looked_up cfg label s));
            EvWaitStatus label [SAVED];
            EvExec (startvm_args cfg label);
            EvWaitStatus label [RUNNING]])%list.
Proof.
  intros Hst Hne Hrun1 Hrc1 Hwait1 Hrun2 Herr2 Hwait2 Hmem.
  rewrite (start_in_order_run label status t s c1 c2 w1 w2 w3 w4)
    by assumption.
  rewrite Hmem. cbn [ret fst snd world trace].
  split; [reflexivity|]. split; [reflexivity|].
  pose proof (steps_start_in_order label s (looked_up cfg label s) [])
    as Hsteps.
  rewrite !app_nil_r in Hsteps. exact Hsteps.
Qed.

(** X2: [start] gives up at a snapshot command that cannot be launched or
    exits with a code other than zero: it raises, and it neither waits
    for a status nor launches the start command. *)
Theorem start_stops_at_failed_restore (label status : string) (t : task)
    (s : st W) (r : string + completed) (w1 : W) :
  fst (_status cfg label s) = Ok status ->
  status <> RUNNING ->
  host_run (snapshot_args cfg label (looked_up cfg label s))
    (status_world cfg label s) = (r, w1) ->
  (forall c, r = inr c -> returncode c <> 0%Z) ->
  fst (start cfg label t s)
  = Raise (CuckooMachineError
             match r with
             | inl msg => "VBoxManage failed restoring the machine: " ++ msg
             | inr _ =>
                 "VBoxManage exited with error trying to restore the machine's snapshot"
             end)
  /\ steps (trace (snd (start cfg label t s)))
     = (steps (trace s)
        ++ [EvExec (status_args cfg label);
            EvExec (snapshot_args cfg label (looked_up cfg label s))])%list.
Proof.
  intros Hst Hne Hrun1 Hrc1.
  unfold looked_up, status_world in *.
  rewrite start_unfold. cbv zeta. rewrite Hst.
  apply String.eqb_neq in Hne. rewrite Hne.
  pose proof (after_status_steps cfg "Starting vm " label s) as Hsteps.
  rewrite <- (after_status_world cfg "Starting vm " label s) in *.
  set (s2 := after_status cfg "Starting vm " label s) in *.
  set (m := host_view_machine label (world s2)) in *.
  unfold start_body, bind, try_except, popen_run.
  cbn [world trace]. rewrite Hrun1.
  destruct r as [msg|c]; cbn [on_OSError raise fst snd trace].
  - split; [reflexivity|].
    rewrite !steps_app, Hsteps. cbn. rewrite is_step_restore_log.
    now rewrite <- !app_assoc.
  - specialize (Hrc1 c eq_refl). apply Z.eqb_neq in Hrc1. rewrite Hrc1.
    cbn [negb on_OSError raise fst snd trace]. split; [reflexivity|].
    rewrite !steps_app, Hsteps. cbn. rewrite is_step_restore_log.
    now rewrite <- !app_assoc.
Qed.

(** X3: when the wait for [saved] fails, [start] raises the error of the
    wait and the start command is never launched. *)
Theorem start_stops_at_failed_wait (label status msg : string) (t : task)
    (s : st W) (c1 : completed) (w1 w2 : W) :
  fst (_status cfg label s) = Ok status ->
  status <> RUNNING ->
  host_run (snapshot_args cfg label (looked_up cfg label s))
    (status_world cfg label s) = (inr c1, w1) ->
  returncode c1 = 0%Z ->
  host_wait_status label [SAVED] w1 = (Some msg, w2) ->
  fst (start cfg label t s) = Raise (CuckooMachineError msg)
  /\ steps (trace (snd (start cfg label t s)))
     = (steps (trace s)
        ++ [EvExec (status_args cfg label);
            EvExec (snapshot_args cfg label (looked_up cfg label s));
            EvWaitStatus label [SAVED]])%list.
Proof.
  intros Hst Hne Hrun1 Hrc1 Hwait1.
  unfold looked_up, status_world in *.
  rewrite start_unfold. cbv zeta. rewrite Hst.
  apply String.eqb_neq in Hne. rewrite Hne.
  pose proof (after_status_steps cfg "Starting vm " label s) as Hsteps.
  rewrite <- (after_status_world cfg "Starting vm " label s) in *.
  set (s2 := after_status cfg "Starting vm " label s) in *.
  set (m := host_view_machine label (world s2)) in *.
  unfold start_body, bind, try_except, popen_run, _wait_status.
  cbn [world trace]. rewrite Hrun1, Hrc1. cbn [Z.eqb negb ret].
  cbn [world trace]. rewrite Hwait1. cbn [fst snd trace].
  split; [reflexivity|].
  rewrite !steps_app, Hsteps. cbn. rewrite is_step_restore_log.
  now rewrite <- !app_assoc.
Qed.

(** X4: the start command fails by what it writes on its standard error,
    not by its exit code: any text there, or a failed launch, makes
    [start] raise an error that names the mode in upper case, and the
    wait for [running] is not made. *)
Theorem start_fails_on_stderr (label status : string) (t : task) (s : st W)
    (c1 : completed) (r : string + completed) (w1 w2 w3 : W) :
  fst (_status cfg label s) = Ok status ->
  status <> RUNNING ->
  host_run (snapshot_args cfg label (looked_up cfg label s))
    (status_world cfg label s) = (inr c1, w1) ->
  returncode c1 = 0%Z ->
  host_wait_status label [SAVED] w1 = (None, w2) ->
  host_run (startvm_args cfg label) w2 = (r, w3) ->
  (forall c, r = inr c -> stderr c <> "") ->
  fst (start cfg label t s)
  = Raise (CuckooMachineError
             ("VBoxManage failed starting the machine in "
              ++ Py.upper (virtualbox_mode cfg) ++ " mode: "
              ++ match r with
                 | inl msg => msg
                 | inr c => stderr c
                 end))
  /\ steps (trace (snd (start cfg label t s)))
     = (steps (trace s)
        ++ [EvExec (status_args cfg label);
            EvExec (snapshot_args cfg label (looked_up cfg label s));
            EvWaitStatus label [SAVED];
            EvExec (startvm_args cfg label)])%list.
Proof.
  intros Hst Hne Hrun1 Hrc1 Hwait1 Hrun2 Herr2.
  unfold looked_up, status_world in *.
  rewrite start_unfold. cbv zeta. rewrite Hst.
  apply String.eqb_neq in Hne. rewrite Hne.
  pose proof (after_status_steps cfg "Starting vm " label s) as Hsteps.
  rewrite <- (after_status_world cfg "Starting vm " label s) in *.
  set (s2 := after_status cfg "Starting vm " label s) in *.
  set (m := host_view_machine label (world s2)) in *.
  unfold startvm_args in *.
  unfold start_body, bind, try_except, popen_run, _wait_status.
  cbn [world trace]. rewrite Hrun1, Hrc1. cbn [Z.eqb negb ret].
  cbn [world trace]. rewrite Hwait1. cbn [world trace]. rewrite Hrun2.
  destruct r as [msg|c]; cbn [on_OSError raise fst snd trace].
  - split; [reflexivity|].
    rewrite !steps_app, Hsteps. cbn. rewrite is_step_restore_log.
    now rewrite <- !app_assoc.
  - specialize (Herr2 c eq_refl). apply String.eqb_neq in Herr2.
    unfold Py.truthy. rewrite Herr2.
    cbn [negb on_OSError raise fst snd trace]. split; [reflexivity|].
    rewrite !steps_app, Hsteps. cbn. rewrite is_step_restore_log.
    now rewrite <- !app_assoc.
Qed.

(** X6: when setting the trace file fails with an exit code, [dump_pcap]
    leaves one critical record and returns without launching the command
    that would switch the tracing on. *)
Theorem dump_pcap_stops_at_failed_tracefile (label : string) (t : task)
    (s : st W) (c1 : completed) (w1 : W) :
  host_run (tracefile_args cfg label t) (world s) = (inr c1, w1) ->
  returncode c1 <> 0%Z ->
  dump_pcap cfg label t s
  = (Ok tt,
     St w1
       (trace s
        ++ [EvExec (tracefile_args cfg label t);
            EvLog CRITICAL "Unable to set NIC tracefile (pcap file): %s"
              [LExn (CalledProcessError (returncode c1)
                       (tracefile_args cfg label t))]])).
Proof.
  intros Hrun Hrc. unfold tracefile_args in *.
  unfold dump_pcap, pcap_step, check_call, try_except, popen_run, bind.
  cbn [world trace]. rewrite Hrun.
  apply Z.eqb_neq in Hrc. rewrite Hrc.
  cbn. now rewrite <- app_assoc.
Qed.

(** X7: when the trace file was set, [dump_pcap] launches the command that
    switches the tracing on, and it returns whatever the exit code of
    that command is; a code other than zero leaves one critical
    record. *)
Theorem dump_pcap_enables_after_tracefile (label : string) (t : task)
    (s : st W) (c1 c2 : completed) (w1 w2 : W) :
  host_run (tracefile_args cfg label t) (world s) = (inr c1, w1) ->
  returncode c1 = 0%Z ->
  host_run (trace_on_args cfg label) w1 = (inr c2, w2) ->
  dump_pcap cfg label t s
  = (Ok tt,
     St w2
       (trace s
        ++ [EvExec (tracefile_args cfg label t);
            EvExec (trace_on_args cfg label)]
        ++ if (returncode c2 =? 0)%Z then []
           else [EvLog CRITICAL
                   "Unable to enable NIC tracing (pcap file): %s"
                   [LExn (CalledProcessError (returncode c2)
                            (trace_on_args cfg label))]])).
Proof.
  intros Hrun1 Hrc1 Hrun2. unfold tracefile_args, trace_on_args in *.
  unfold dump_pcap, pcap_step, check_call, try_except, popen_run, bind.
  cbn [world trace]. rewrite Hrun1, Hrc1. cbn [Z.eqb ret].
  cbn [world trace]. rewrite Hrun2.
  destruct (returncode c2 =? 0)%Z; cbn; now rewrite <- !app_assoc.
Qed.

(** X5: a failure of the network trace does not undo a start: with the
    option [nictrace] and every step of [start] successful, [start]
    returns normally although the command that sets the trace file exits
    with a code other than zero. *)
Theorem start_survives_failed_trace (label status : string) (t : task)
    (s : st W) (c1 c2 c3 : completed) (w1 w2 w3 w4 w5 : W) :
  fst (_status cfg label s) = Ok status ->
  status <> RUNNING ->
  host_run (snapshot_args cfg label (looked_up cfg label s))
    (status_world cfg label s) = (inr c1, w1) ->
  returncode c1 = 0%Z ->
  host_wait_status label [SAVED] w1 = (None, w2) ->
  host_run (startvm_args cfg label) w2 = (inr c2, w3) ->
  stderr c2 = "" ->
  host_wait_status label [RUNNING] w3 = (None, w4) ->
  Py.mem "nictrace" (options (looked_up cfg label s)) = true ->
  host_run (tracefile_args cfg label t) w4 = (inr c3, w5) ->
  returncode c3 <> 0%Z ->
  fst (start cfg label t s) = Ok tt
  /\ steps (trace (snd (start cfg label t s)))
     = (steps (trace s)
        ++ [EvExec (status_args cfg label);
            EvExec (snapshot_args cfg label (looked_up cfg label s));
            EvWaitStatus label [SAVED];
            EvExec (startvm_args cfg label);
            EvWaitStatus label [RUNNING];
            EvExec (tracefile_args cfg label t)])%list.
Proof.
  intros Hst Hne Hrun1 Hrc1 Hwait1 Hrun2 Herr2 Hwait2 Hmem Hrun3 Hrc3.
  rewrite (start_in_order_run label status t s c1 c2 w1 w2 w3 w4)
    by assumption.
  rewrite Hmem. unfold tracefile_args in *.
  unfold dump_pcap, pcap_step, check_call, try_except, popen_run, bind.
  cbn [world trace]. rewrite Hrun3.
  apply Z.eqb_neq in Hrc3. rewrite Hrc3.
  cbn [on_CalledProcessError raise log emit ret bind fst snd world trace].
  split; [reflexivity|].
  rewrite <- !app_assoc.
  rewrite (steps_start_in_order label s (looked_up cfg label s)).
  cbn. rewrite <- ?app_assoc. reflexivity.
Qed.

End StartRuns.

(** ** [stop] beyond its check *)

Section StopRuns.

Context {W : Type} {host : Host W}.
Variable cfg : config.

(** A process that exits on its own: [n] polls one second apart find it
    alive and the next one sees its exit code. *)
Lemma poll_loop_exits (label : string) (p : proc) (T : Z) (n fuel : nat)
    (w w1 w2 : W) (rc : Z) (tr : list event) :
  (Z.of_nat n <= Z.max 0 T)%Z ->
  alive_rounds n p w = Some w1 ->
  host_poll p w1 = (Some rc, w2) ->
  (n < fuel)%nat ->
  poll_loop fuel label p T 0%Z (St w tr)
  = (Ok (rc, Z.of_nat n),
     St w2 (tr ++ rounds n wait_round ++ [EvPoll (Some rc)])).
Proof.
  intros Hn Halive Hpoll Hfuel.
  replace fuel with (n + S (fuel - n - 1))%nat by lia.
  rewrite (poll_loop_waits label p T n 0%Z _ w w1) by (assumption || lia).
  cbn [poll_loop]. unfold bind, poll. cbn [world trace]. rewrite Hpoll.
  cbn [ret Z.add]. now rewrite <- app_assoc.
Qed.

(** Whatever the process does and however much fuel there is, the loop
    launches nothing, waits for no status, sleeps at most the seconds
    that are left of the timeout, and signals the process only after it
    slept them all. *)
Lemma poll_loop_counts (label : string) (p : proc) (T : Z) (fuel : nat) :
  forall (k : Z) (s : st W),
  exists evs : list event,
    trace (snd (poll_loop fuel label p T k s)) = (trace s ++ evs)%list
    /\ steps evs = []
    /\ commands evs = []
    /\ (sleeps evs <= Z.to_nat (T - k))%nat
    /\ (terminations evs <> 0%nat -> sleeps evs = Z.to_nat (T - k)).
Proof.
  induction fuel as [|fuel IH]; intros k s.
  - exists []. cbn. rewrite app_nil_r. repeat split; try lia; try congruence.
  - cbn [poll_loop]. unfold bind at 1, poll at 1.
    destruct (host_poll p (world s)) as [[rc|] w'].
    + exists [EvPoll (Some rc)]. cbn. repeat split; try lia; try congruence.
    + destruct (k <? T)%Z eqn:Hk.
      * apply Z.ltb_lt in Hk. unfold bind at 1, sleep1. cbn [world trace].
        destruct (IH (k + 1)%Z
                    (St (host_sleep w')
                       ((trace s ++ [EvPoll None]) ++ [EvSleep])))
          as (evs & Htr & Hsteps & Hcmds & Hle & Heq).
        exists ([EvPoll None; EvSleep] ++ evs)%list.
        rewrite Htr. cbn [trace].
        rewrite steps_app, commands_app, sleeps_app, terminations_app.
        rewrite Hsteps, Hcmds. cbn [app].
        change (sleeps [EvPoll None; EvSleep]) with 1%nat.
        change (terminations [EvPoll None; EvSleep]) with 0%nat.
        repeat split; try reflexivity.
        -- now rewrite <- !app_assoc.
        -- lia.
        -- intros Ht. cbn in Ht. specialize (Heq Ht). lia.
      * apply Z.ltb_ge in Hk.
        unfold bind at 1, log at 1, emit. cbn [world trace].
        unfold bind at 1, terminate at 1. cbn [world trace].
        match goal with
        | |- context [poll_loop fuel label p T k ?s0] =>
            destruct (IH k s0) as (evs & Htr & Hsteps & Hcmds & Hle & Heq)
        end.
        exists (kill_round label ++ evs)%list.
        rewrite Htr. cbn [trace].
        rewrite steps_app, commands_app, sleeps_app, terminations_app.
        rewrite Hsteps, Hcmds. unfold kill_round. cbn [app].
        repeat split; try reflexivity.
        -- now rewrite <- !app_assoc.
        -- cbn. lia.
        -- intros _. cbn. lia.
Qed.

(** The events of the body of [stop]: the launch of the poweroff
    command, and after it no other command, at most [T] seconds of
    sleep, and signals only once [T] seconds were slept. *)
Lemma stop_body_events (fuel : nat) (label : string) (s : st W) :
  exists evs : list event,
    trace (snd (stop_body cfg fuel label s))
    = (trace s ++ EvExec (poweroff_args cfg label) :: evs)%list
    /\ commands evs = []
    /\ (sleeps evs <= Z.to_nat (timeouts_vm_state cfg))%nat
    /\ (terminations evs <> 0%nat
        -> sleeps evs = Z.to_nat (timeouts_vm_state cfg)).
Proof.
  unfold stop_body, poweroff_args. cbv zeta.
  set (T := timeouts_vm_state cfg).
  unfold bind at 1, try_except. unfold bind at 1, popen at 1.
  destruct (host_spawn _ (world s)) as [[msg|p] w0].
  - exists []. cbn. repeat split; try lia; try congruence.
  - unfold bind at 1.
    match goal with
    | |- context [poll_loop fuel label p T 0%Z ?s0] =>
        destruct (poll_loop_counts label p T fuel 0%Z s0)
          as (evs & Htr & Hsteps & Hcmds & Hle & Heq);
        destruct (poll_loop fuel label p T 0%Z s0) as [[[rc stop_me]|e|] s']
    end; cbn [snd trace] in Htr; rewrite Z.sub_0_r in Hle, Heq.
    + destruct (negb (rc =? 0)%Z && (stop_me <? T)%Z).
      * unfold log, emit, bind, _wait_status. cbn [world trace].
        exists (evs
                ++ [EvLog DEBUG
                      "VBoxManage exited with error powering off the machine"
                      [];
                    EvWaitStatus label [POWEROFF; ABORTED; SAVED]])%list.
        rewrite commands_app, sleeps_app, terminations_app, Hcmds.
        cbn [commands app]. change (sleeps [_; _]) with 0%nat.
        change (terminations [_; _]) with 0%nat.
        rewrite !Nat.add_0_r. repeat split; try assumption.
        destruct (host_wait_status _ _ _) as [[m|] w3]; cbn [snd trace];
          rewrite Htr, <- !app_assoc; reflexivity.
      * unfold ret, bind, _wait_status. cbn [world trace].
        exists (evs ++ [EvWaitStatus label [POWEROFF; ABORTED; SAVED]])%list.
        rewrite commands_app, sleeps_app, terminations_app, Hcmds.
        cbn [commands app]. change (sleeps [_]) with 0%nat.
        change (terminations [_]) with 0%nat.
        rewrite !Nat.add_0_r. repeat split; try assumption.
        destruct (host_wait_status _ _ _) as [[m|] w3]; cbn [snd trace];
          rewrite Htr, <- !app_assoc; reflexivity.
    + exists evs. repeat split; try assumption.
      destruct e; cbn [on_OSError bind raise snd trace];
        rewrite Htr, <- !app_assoc; reflexivity.
    + exists evs. repeat split; try assumption.
      cbn [bind snd trace]. rewrite Htr, <- !app_assoc. reflexivity.
Qed.

End StopRuns.

Section StopProperties.

Context {W : Type} {host : Host W}.
Variable cfg : config.

(** X8: when the poweroff process exits on its own within the timeout,
    [stop] never signals it: it sleeps one second per poll that found
    the process alive, and goes on to the wait for the final status,
    whose result is its result.  An exit code other than zero raises
    nothing; it leaves a debug record, and only when the exit was seen
    before [T] seconds were slept. *)
Theorem stop_exits_in_time (fuel n : nat) (label status : string)
    (s : st W) (p : proc) (w0 w1 w2 : W) (rc : Z) :
  fst (_status cfg label s) = Ok status ->
  status <> POWEROFF ->
  status <> ABORTED ->
  host_spawn (poweroff_args cfg label) (status_world cfg label s)
  = (inr p, w0) ->
  (Z.of_nat n <= Z.max 0 (timeouts_vm_state cfg))%Z ->
  alive_rounds n p w0 = Some w1 ->
  host_poll p w1 = (Some rc, w2) ->
  (n < fuel)%nat ->
  trace (snd (stop cfg fuel label s))
  = (trace (after_status cfg "Stopping vm " label s)
     ++ EvExec (poweroff_args cfg label)
        :: rounds n wait_round
     ++ [EvPoll (Some rc)]
     ++ (if negb (rc =? 0)%Z && (Z.of_nat n <? timeouts_vm_state cfg)%Z
         then [EvLog DEBUG
                 "VBoxManage exited with error powering off the machine" []]
         else [])
     ++ [EvWaitStatus label [POWEROFF; ABORTED; SAVED]])%list
  /\ terminations (trace (snd (stop cfg fuel label s)))
     = terminations (trace s)
  /\ fst (stop cfg fuel label s)
     = match fst (host_wait_status label [POWEROFF; ABORTED; SAVED] w2) with
       | Some msg => Raise (CuckooMachineError msg)
       | None => Ok tt
       end.
Proof.
  intros Hst Hp Ha Hspawn Hn Halive Hpoll Hfuel.
  unfold status_world in Hspawn.
  rewrite <- (after_status_world cfg "Stopping vm " label s) in Hspawn.
  pose proof (after_status_terminations cfg "Stopping vm " label s) as Hterm.
  set (s2 := after_status cfg "Stopping vm " label s) in *.
  set (T := timeouts_vm_state cfg) in *.
  assert (Hmem : Py.mem status [POWEROFF; ABORTED] = false).
  { cbn. apply String.eqb_neq in Hp, Ha. now rewrite Hp, Ha. }
  assert (Hrun :
    stop cfg fuel label s
    = (match fst (host_wait_status label [POWEROFF; ABORTED; SAVED] w2) with
       | Some msg => Raise (CuckooMachineError msg)
       | None => Ok tt
       end,
       St (snd (host_wait_status label [POWEROFF; ABORTED; SAVED] w2))
         (trace s2
          ++ EvExec (poweroff_args cfg label)
             :: rounds n wait_round
          ++ [EvPoll (Some rc)]
          ++ (if negb (rc =? 0)%Z && (Z.of_nat n <? T)%Z
              then [EvLog DEBUG
                      "VBoxManage exited with error powering off the machine"
                      []]
              else [])
          ++ [EvWaitStatus label [POWEROFF; ABORTED; SAVED]]))).
  { rewrite stop_unfold. cbv zeta. rewrite Hst, Hmem. fold s2.
    unfold stop_body. cbv zeta. fold T.
    unfold bind at 1, try_except. unfold bind at 1, popen at 1.
    unfold poweroff_args in *. rewrite Hspawn. unfold bind at 1.
    rewrite (poll_loop_exits label p T n fuel w0 w1 w2 rc) by assumption.
    destruct (negb (rc =? 0)%Z && (Z.of_nat n <? T)%Z);
      unfold log, emit, ret, _wait_status; cbn [world trace];
      destruct (host_wait_status label [POWEROFF; ABORTED; SAVED] w2)
        as [[msg|] w3]; cbn [fst snd];
      rewrite <- !app_assoc; reflexivity. }
  rewrite Hrun. cbn [fst snd trace].
  split; [reflexivity|]. split; [|reflexivity].
  rewrite terminations_app, Hterm. cbn [terminations].
  rewrite !terminations_app, terminations_wait_rounds.
  destruct (negb (rc =? 0)%Z && (Z.of_nat n <? T)%Z); cbn; lia.
Qed.

(** X9: when the poweroff command cannot be launched, [stop] raises and
    does not wait for the final status. *)
Theorem stop_fails_at_launch (fuel : nat) (label status msg : string)
    (s : st W) (w0 : W) :
  fst (_status cfg label s) = Ok status ->
  status <> POWEROFF ->
  status <> ABORTED ->
  host_spawn (poweroff_args cfg label) (status_world cfg label s)
  = (inl msg, w0) ->
  fst (stop cfg fuel label s)
  = Raise (CuckooMachineError
             ("VBoxManage failed powering off the machine: " ++ msg))
  /\ steps (trace (snd (stop cfg fuel label s)))
     = (steps (trace s)
        ++ [EvExec (status_args cfg label);
            EvExec (poweroff_args cfg label)])%list.
Proof.
  intros Hst Hp Ha Hspawn.
  unfold status_world in Hspawn.
  rewrite <- (after_status_world cfg "Stopping vm " label s) in Hspawn.
  pose proof (after_status_steps cfg "Stopping vm " label s) as Hsteps.
  set (s2 := after_status cfg "Stopping vm " label s) in *.
  assert (Hmem : Py.mem status [POWEROFF; ABORTED] = false).
  { cbn. apply String.eqb_neq in Hp, Ha. now rewrite Hp, Ha. }
  assert (Hrun :
    stop_body cfg fuel label s2
    = (Raise (CuckooMachineError
                ("VBoxManage failed powering off the machine: " ++ msg)),
       St w0 (trace s2 ++ [EvExec (poweroff_args cfg label)]))).
  { unfold stop_body. cbv zeta.
    unfold bind at 1, try_except. unfold bind at 1, popen at 1.
    unfold poweroff_args in *. now rewrite Hspawn. }
  rewrite stop_unfold. cbv zeta. rewrite Hst, Hmem. fold s2.
  rewrite Hrun. cbn [fst snd trace]. split; [reflexivity|].
  rewrite steps_app, Hsteps. cbn. now rewrite <- app_assoc.
Qed.

(** The steps of the body of [stop]: the launch of the poweroff command
    and then, at most, the final wait. *)
Lemma stop_body_steps (fuel : nat) (label : string) (s : st W) :
  exists tail : list event,
    (tail = [] \/ tail = [EvWaitStatus label [POWEROFF; ABORTED; SAVED]])
    /\ steps (trace (snd (stop_body cfg fuel label s)))
       = (steps (trace s) ++ EvExec (poweroff_args cfg label) :: tail)%list.
Proof.
  unfold stop_body, poweroff_args. cbv zeta.
  set (T := timeouts_vm_state cfg).
  unfold bind at 1, try_except. unfold bind at 1, popen at 1.
  destruct (host_spawn _ (world s)) as [[msg|p] w0].
  - exists []. split; [now left|].
    cbn [on_OSError raise snd trace]. now rewrite steps_app.
  - unfold bind at 1.
    match goal with
    | |- context [poll_loop fuel label p T 0%Z ?s0] =>
        destruct (poll_loop_counts label p T fuel 0%Z s0)
          as (evs & Htr & Hsteps & _);
        destruct (poll_loop fuel label p T 0%Z s0) as [[[rc stop_me]|e|] s']
    end; cbn [snd trace] in Htr.
    + exists [EvWaitStatus label [POWEROFF; ABORTED; SAVED]].
      split; [now right|].
      destruct (negb (rc =? 0)%Z && (stop_me <? T)%Z);
        unfold log, emit, ret, bind, _wait_status; cbn [world trace];
        match goal with
        | |- context [host_wait_status ?l ?ts ?w] =>
            destruct (host_wait_status l ts w) as [[m|] w3]
        end; cbn [snd trace];
        rewrite ?steps_app, Htr, !steps_app, Hsteps; cbn;
        rewrite <- ?app_assoc; reflexivity.
    + exists []. split; [now left|].
      destruct e; cbn [on_OSError bind raise snd trace];
        rewrite Htr, !steps_app, Hsteps; cbn;
        rewrite <- ?app_assoc; reflexivity.
    + exists []. split; [now left|].
      cbn [bind snd trace]. rewrite Htr, !steps_app, Hsteps. cbn.
      rewrite <- ?app_assoc. reflexivity.
Qed.

(** X10: whatever its status, a machine that is neither powered off nor
    aborted (a saved one, or one whose status is the sentinel) gets the
    poweroff command.  Whatever the process does afterwards and whatever
    the fuel, the steps of [stop] are the status query, the launch of
    the poweroff command and then at most one more step, the call of the
    inherited wait for [poweroff], [aborted] or [saved].  What that wait
    launches by itself is no part of [stop] and is not counted. *)
Theorem stop_launches_query_and_poweroff (fuel : nat) (label status : string)
    (s : st W) :
  fst (_status cfg label s) = Ok status ->
  status <> POWEROFF ->
  status <> ABORTED ->
  exists tail : list event,
    (tail = [] \/ tail = [EvWaitStatus label [POWEROFF; ABORTED; SAVED]])
    /\ steps (trace (snd (stop cfg fuel label s)))
       = (steps (trace s)
          ++ [EvExec (status_args cfg label);
              EvExec (poweroff_args cfg label)]
          ++ tail)%list.
Proof.
  intros Hst Hp Ha.
  assert (Hmem : Py.mem status [POWEROFF; ABORTED] = false).
  { cbn. apply String.eqb_neq in Hp, Ha. now rewrite Hp, Ha. }
  rewrite stop_unfold. cbv zeta. rewrite Hst, Hmem.
  destruct (stop_body_steps fuel label
              (after_status cfg "Stopping vm " label s))
    as (tail & Htail & Hsteps).
  exists tail. split; [exact Htail|].
  rewrite Hsteps, after_status_steps, <- app_assoc. reflexivity.
Qed.

(** X11: the polling loop of [stop] never sleeps more than the seconds
    of the timeout, and not at all when the timeout is zero or negative,
    whatever the process does and however long the loop runs.  The
    sleeps of the inherited wait that follows the loop are no part of
    it. *)
Theorem poll_loop_sleeps_at_most_timeout (fuel : nat) (label : string)
    (p : proc) (s : st W) :
  (sleeps (trace (snd (poll_loop fuel label p (timeouts_vm_state cfg)
                         0%Z s)))
   <= sleeps (trace s) + Z.to_nat (timeouts_vm_state cfg))%nat.
Proof.
  destruct (poll_loop_counts label p (timeouts_vm_state cfg) fuel 0%Z s)
    as (evs & Htr & _ & _ & Hle & _).
  rewrite Htr, sleeps_app. rewrite Z.sub_0_r in Hle. lia.
Qed.

(** X12: [stop] signals the poweroff process only after it slept all the
    seconds of the timeout. *)
Theorem stop_signals_only_after_timeout (fuel : nat) (label : string)
    (s : st W) :
  terminations (trace (snd (stop cfg fuel label s)))
  <> terminations (trace s) ->
  sleeps (trace (snd (stop cfg fuel label s)))
  = (sleeps (trace s) + Z.to_nat (timeouts_vm_state cfg))%nat.
Proof.
  rewrite stop_unfold. cbv zeta.
  pose proof (after_status_sleeps cfg "Stopping vm " label s) as Hsl.
  pose proof (after_status_terminations cfg "Stopping vm " label s) as Hte.
  destruct (fst (_status cfg label s)) as [status|e|]; cbn [snd];
    try (rewrite Hte; congruence).
  destruct (Py.mem status [POWEROFF; ABORTED]); cbn [snd];
    [rewrite Hte; congruence|].
  destruct (stop_body_events cfg fuel label
              (after_status cfg "Stopping vm " label s))
    as (evs & Htr & _ & _ & Heq).
  rewrite Htr, sleeps_app, terminations_app, Hsl, Hte.
  change (EvExec (poweroff_args cfg label) :: evs)
    with ([EvExec (poweroff_args cfg label)] ++ evs)%list.
  rewrite sleeps_app, terminations_app. cbn [terminations sleeps].
  intros Hne. rewrite Heq by lia. cbn. lia.
Qed.

End StopProperties.

(** ** More on the fields of a line *)

Section FieldFacts.

Lemma split_pair_no_sep (c : ascii) (s : string) :
  Py.contains c s = false -> Py.split_pair c s = (s, []).
Proof.
  induction s as [|a s IH]; simpl; [reflexivity|].
  destruct (Ascii.eqb a c); simpl; [discriminate|].
  intros H. now rewrite (IH H).
Qed.

(** No field of [s.split(c)] holds the separator. *)
Lemma split_fields_no_sep (c : ascii) (s : string) :
  forall f, In f (Py.split c s) -> Py.contains c f = false.
Proof.
  unfold Py.split. induction s as [|a s IH]; simpl.
  - intros f [<-|[]]. reflexivity.
  - destruct (Py.split_pair c s) as [h t].
    destruct (Ascii.eqb a c) eqn:E; intros f [<-|Hin].
    + reflexivity.
    + now apply IH.
    + simpl. rewrite E. apply IH. now left.
    + apply IH. now right.
Qed.

(** A character of a field of [s.split(c)] is a character of [s]. *)
Lemma split_fields_sub (c d : ascii) (s : string) :
  forall f, In f (Py.split c s) ->
            Py.contains d f = true -> Py.contains d s = true.
Proof.
  unfold Py.split. induction s as [|a s IH]; simpl.
  - intros f [<-|[]]. discriminate.
  - destruct (Py.split_pair c s) as [h t].
    destruct (Ascii.eqb a c) eqn:E; intros f [<-|Hin] Hd.
    + discriminate.
    + rewrite (IH f Hin Hd). apply orb_true_r.
    + simpl in Hd. apply orb_true_iff in Hd as [Hd|Hd].
      * now rewrite Hd.
      * rewrite (IH h (or_introl eq_refl) Hd). apply orb_true_r.
    + rewrite (IH f (or_intror Hin) Hd). apply orb_true_r.
Qed.

(** Splitting two texts joined by the separator gives the fields of the
    first followed by the fields of the second. *)
Lemma split_app_sep (c : ascii) (s1 s2 : string) :
  Py.split c (s1 ++ String c s2) = (Py.split c s1 ++ Py.split c s2)%list.
Proof.
  unfold Py.split. induction s1 as [|a s1 IH]; simpl.
  - rewrite Ascii.eqb_refl. now destruct (Py.split_pair c s2).
  - destruct (Py.split_pair c (s1 ++ String c s2)) as [h t].
    destruct (Py.split_pair c s1) as [h1 t1].
    destruct (Py.split_pair c s2) as [h2 t2].
    simpl in IH. injection IH as -> ->.
    now destruct (Ascii.eqb a c).
Qed.

Lemma upto_quote_no_quote (s : string) :
  Py.contains Py.dquote (Spec.upto_quote s) = false.
Proof.
  induction s as [|a s IH]; simpl; [reflexivity|].
  destruct (Ascii.eqb a Py.dquote) eqn:E; simpl; [reflexivity|].
  now rewrite E.
Qed.

Lemma upto_quote_sub (d : ascii) (s : string) :
  Py.contains d (Spec.upto_quote s) = true -> Py.contains d s = true.
Proof.
  induction s as [|a s IH]; simpl; [discriminate|].
  destruct (Ascii.eqb a Py.dquote); simpl; [discriminate|].
  intros H. apply orb_true_iff in H as [H|H].
  - now rewrite H.
  - rewrite (IH H). apply orb_true_r.
Qed.

Lemma after_quote_sub (d : ascii) (s : string) :
  Py.contains d (Spec.after_quote s) = true -> Py.contains d s = true.
Proof.
  induction s as [|a s IH]; simpl; [discriminate|].
  destruct (Ascii.eqb a Py.dquote); intros H.
  - rewrite H. apply orb_true_r.
  - rewrite (IH H). apply orb_true_r.
Qed.

Lemma first_quoted_sub (d : ascii) (line : string) :
  Py.contains d (Spec.first_quoted line) = true ->
  Py.contains d line = true.
Proof.
  unfold Spec.first_quoted. intros H.
  now apply after_quote_sub, upto_quote_sub.
Qed.

Lemma lower_char_idempotent (a : ascii) :
  Py.lower_char (Py.lower_char a) = Py.lower_char a.
Proof.
  destruct a as [[] [] [] [] [] [] [] []]; reflexivity.
Qed.

(** A lowercased text has no upper case letter left. *)
Lemma lower_idempotent (s : string) : Py.lower (Py.lower s) = Py.lower s.
Proof.
  unfold Py.lower. induction s as [|a s IH]; simpl; [reflexivity|].
  now rewrite lower_char_idempotent, IH.
Qed.

Lemma last_opt_In {A : Type} (xs : list A) (x : A) :
  Spec.last_opt xs = Some x -> In x xs.
Proof.
  induction xs as [|y ys IH]; [discriminate|].
  rewrite last_opt_cons. destruct (Spec.last_opt ys) as [z|].
  - intros [= ->]. right. now apply IH.
  - intros [= ->]. now left.
Qed.

(** X24: the guard of [_list] is exact: the field of index 1 of a line exists
    if and only if the line holds a quote. *)
Theorem quoted_field_exists_iff_quote (line : string) :
  (exists field, nth_error (Py.split Py.dquote line) 1 = Some field)
  <-> Py.contains Py.dquote line = true.
Proof.
  split.
  - intros [field Hf]. destruct (Py.contains Py.dquote line) eqn:E;
      [reflexivity|].
    unfold Py.split in Hf. rewrite (split_pair_no_sep _ _ E) in Hf.
    discriminate.
  - intros Hc. exists (Spec.first_quoted line). now apply split_index1.
Qed.

End FieldFacts.

(** ** More on [_status], [_list] and [dump_memory] *)

Section QueryProperties.

Context {W : Type} {host : Host W}.
Variable cfg : config.

(** X15: every status [_status] returns is in lower case, whatever the case
    of the value the hypervisor printed. *)
Theorem status_is_lowercase (label : string) (s : st W) (v : string) :
  fst (_status cfg label s) = Ok v -> Py.lower v = v.
Proof.
  rewrite _status_result.
  destruct (fst (host_run (status_args cfg label) (world s))) as [msg|c];
    cbn [status_outcome].
  - intros [= <-]. reflexivity.
  - destruct (returncode c =? 0)%Z; [|intros [= <-]; reflexivity].
    destruct (Spec.last_opt (Spec.vmstate_values (stdout c))) as [v'|] eqn:E;
      [|discriminate].
    destruct (Py.truthy v'); [|discriminate].
    intros [= <-]. apply last_opt_In in E.
    unfold Spec.vmstate_values, Spec.vmstate_values_of_lines in E.
    apply in_map_iff in E as (line & <- & _).
    apply lower_idempotent.
Qed.

(** X16: [_status] reports to the registry exactly what it returns, once,
    the sentinel included. *)
Theorem status_reports_what_it_returns (label : string) (s : st W)
    (v : string) :
  fst (_status cfg label s) = Ok v ->
  reports (trace (snd (_status cfg label s)))
  = (reports (trace s) ++ [(label, v)])%list.
Proof.
  rewrite _status_run. cbv zeta.
  destruct (host_run _ (world s)) as [[msg|c] w].
  - cbn [fst snd trace]. intros [= <-].
    rewrite !reports_app. cbn. now rewrite app_nil_r.
  - destruct (returncode c =? 0)%Z.
    + destruct (status_outcome label (inr c)) as [v'| |]; cbn [fst snd trace];
        try discriminate.
      intros [= <-]. rewrite !reports_app, reports_status_logs. cbn.
      now rewrite !app_nil_r.
    + cbn [fst snd trace]. intros [= <-].
      rewrite !reports_app. cbn. now rewrite app_nil_r.
Qed.

(** X17: [_status] raises only when the query exited with code zero and
    its output holds no status line, or a last status line whose value is
    empty; the error is always the same; [_status] then reports nothing
    to the registry and leaves the world as the query left it. *)
Theorem status_raises_only_after_clean_exit (label : string) (s : st W)
    (e : exn) :
  fst (_status cfg label s) = Raise e ->
  e = status_unavailable label
  /\ reports (trace (snd (_status cfg label s))) = reports (trace s)
  /\ exists (c : completed),
       host_run (status_args cfg label) (world s)
       = (inr c, world (snd (_status cfg label s)))
       /\ returncode c = 0%Z
       /\ (Spec.last_opt (Spec.vmstate_values (stdout c)) = None
           \/ Spec.last_opt (Spec.vmstate_values (stdout c)) = Some "").
Proof.
  rewrite _status_run. cbv zeta.
  destruct (host_run _ (world s)) as [[msg|c] w]; [discriminate|].
  destruct (returncode c =? 0)%Z eqn:Hrc; [|discriminate].
  unfold status_outcome. rewrite Hrc. apply Z.eqb_eq in Hrc.
  destruct (Spec.last_opt (Spec.vmstate_values (stdout c))) as [v|]
    eqn:Elast.
  - destruct (Py.truthy v) eqn:Etr; cbn [fst snd trace world];
      [discriminate|].
    intros [= <-]. split; [reflexivity|]. split.
    + rewrite !reports_app, reports_status_logs. cbn.
      now rewrite !app_nil_r.
    + exists c. split; [reflexivity|]. split; [exact Hrc|]. right.
      unfold Py.truthy in Etr. apply negb_false_iff in Etr.
      apply String.eqb_eq in Etr. now rewrite Elast, Etr.
  - cbn [fst snd trace world]. intros [= <-].
    split; [reflexivity|]. split.
    + rewrite !reports_app, reports_status_logs. cbn.
      now rewrite !app_nil_r.
    + exists c. split; [reflexivity|]. split; [exact Hrc|]. now left.
Qed.

(** X18: every label [_list] returns is free of quotes and of line feeds and
    is not the reserved label. *)
Theorem list_labels_are_clean (s : st W) (ls : list string) :
  fst (_list cfg s) = Ok ls ->
  forall l, In l ls ->
    Py.contains Py.dquote l = false
    /\ Py.contains Py.newline l = false
    /\ l <> "<inaccessible>".
Proof.
  unfold _list, try_except, popen_run. unfold bind at 1.
  destruct (host_run _ (world s)) as [[msg|c] w]; [discriminate|].
  rewrite (list_loop_result (Py.split Py.newline (stdout c)) []).
  intros [= <-] l Hin. cbn [app] in Hin.
  unfold Spec.labels_of_lines in Hin.
  apply filter_In in Hin as [Hin Hres].
  apply in_map_iff in Hin as (line & <- & Hline).
  apply filter_In in Hline as [Hline _].
  repeat split.
  - apply upto_quote_no_quote.
  - destruct (Py.contains Py.newline (Spec.first_quoted line)) eqn:E;
      [|reflexivity].
    apply first_quoted_sub in E.
    now rewrite (split_fields_no_sep _ _ _ Hline) in E.
  - apply negb_true_iff in Hres. now apply String.eqb_neq in Hres.
Qed.

(** X19: an output without any quote, the empty output among them, lists no
    machine; it is no error. *)
Theorem list_of_output_without_quote (s : st W) (c : completed) (w : W) :
  host_run (list_args cfg) (world s) = (inr c, w) ->
  Py.contains Py.dquote (stdout c) = false ->
  fst (_list cfg s) = Ok [].
Proof.
  intros Hrun Hq. unfold _list, try_except, popen_run. unfold bind at 1.
  unfold list_args in Hrun. rewrite Hrun.
  rewrite (list_loop_result (Py.split Py.newline (stdout c)) []).
  cbn [app]. f_equal. unfold Spec.labels_of_lines.
  assert (Hnone : filter (Py.contains Py.dquote)
                    (Py.split Py.newline (stdout c)) = []).
  { pose proof (split_fields_sub Py.newline Py.dquote (stdout c)) as Hsub.
    induction (Py.split Py.newline (stdout c)) as [|f fs IH];
      [reflexivity|].
    cbn [filter].
    destruct (Py.contains Py.dquote f) eqn:E.
    - rewrite (Hsub f (or_introl eq_refl) E) in Hq. discriminate.
    - apply IH. intros g Hg. apply Hsub. now right. }
  now rewrite Hnone.
Qed.

(** X20: the listing of two outputs joined by a line feed is the listing of
    the first followed by the listing of the second: labels are neither
    reordered nor merged, and a label printed twice is listed twice. *)
Theorem list_of_joined_outputs (s1 s2 s : st W) (c1 c2 c : completed)
    (w1 w2 w : W) :
  host_run (list_args cfg) (world s1) = (inr c1, w1) ->
  host_run (list_args cfg) (world s2) = (inr c2, w2) ->
  host_run (list_args cfg) (world s) = (inr c, w) ->
  stdout c = stdout c1 ++ String Py.newline (stdout c2) ->
  exists l1 l2 : list string,
    fst (_list cfg s1) = Ok l1
    /\ fst (_list cfg s2) = Ok l2
    /\ fst (_list cfg s) = Ok (l1 ++ l2)%list.
Proof.
  intros H1 H2 H Hout.
  exists (Spec.labels (stdout c1)), (Spec.labels (stdout c2)).
  unfold _list, try_except, popen_run, bind. unfold list_args in *.
  rewrite H1, H2, H.
  rewrite !(list_loop_result _ []). cbn [app].
  repeat split.
  unfold Spec.labels. now rewrite Hout, split_app_sep, labels_of_lines_app.
Qed.

(** X21: [dump_memory] never looks at the exit code of the dump: once both
    commands could be launched, it returns and leaves the record of a
    successful dump as its last event. *)
Theorem dump_memory_reports_success (label path : string) (s : st W)
    (c c2 : completed) (w w2 : W) :
  host_run (version_args cfg) (world s) = (inr c, w) ->
  host_run (debugvm_args cfg label (dumpcmd_of (stdout c)) path) w
  = (inr c2, w2) ->
  fst (dump_memory cfg label path s) = Ok tt
  /\ exists tr : list event,
       trace (snd (dump_memory cfg label path s))
       = (tr ++ [EvLog INFO
                   "Successfully generated memory dump for virtual machine with label %s to path %s"
                   [LStr label; LStr path]])%list.
Proof.
  intros Hrun Hrun2. unfold version_args, debugvm_args in *.
  unfold dump_memory, try_except, popen_run, bind, log, emit, ret.
  cbn [world trace]. rewrite Hrun.
  destruct (negb (returncode c =? 0)%Z); cbn [world trace];
    rewrite Hrun2; cbn [fst snd trace]; (split; [reflexivity|]);
    eexists; reflexivity.
Qed.

(** X22: when the version query cannot be launched, [dump_memory] raises and
    no dump command is launched. *)
Theorem dump_memory_fails_at_version (label path msg : string) (s : st W)
    (w : W) :
  host_run (version_args cfg) (world s) = (inl msg, w) ->
  dump_memory cfg label path s
  = (Raise (CuckooMachineError
              ("VBoxManage failed return it's version: " ++ msg)),
     St w (trace s ++ [EvExec (version_args cfg)])).
Proof.
  intros Hrun. unfold version_args in *.
  unfold dump_memory, try_except, popen_run, bind.
  cbn [world trace]. now rewrite Hrun.
Qed.

(** X23: when the dump command cannot be launched, [dump_memory] raises an
    error that names the machine, and it leaves no record of a
    successful dump. *)
Theorem dump_memory_fails_at_dump (label path msg : string) (s : st W)
    (c : completed) (w w2 : W) :
  host_run (version_args cfg) (world s) = (inr c, w) ->
  host_run (debugvm_args cfg label (dumpcmd_of (stdout c)) path) w
  = (inl msg, w2) ->
  dump_memory cfg label path s
  = (Raise (CuckooMachineError
              ("VBoxManage failed to take a memory dump of the machine with label "
               ++ label ++ ": " ++ msg)),
     St w2
       (trace s
        ++ [EvExec (version_args cfg)]
        ++ (if (returncode c =? 0)%Z then []
            else [EvLog DEBUG
                    "VBoxManage returns error checking status for machine %s: %s"
                    [LStr label; LStr (stderr c)]])
        ++ [EvExec (debugvm_args cfg label (dumpcmd_of (stdout c)) path)])).
Proof.
  intros Hrun Hrun2. unfold version_args, debugvm_args in *.
  unfold dump_memory, try_except, popen_run, bind, log, emit, ret.
  cbn [world trace]. rewrite Hrun.
  destruct (returncode c =? 0)%Z; cbn [negb world trace];
    rewrite Hrun2; cbn [on_OSError raise app];
    rewrite <- !app_assoc; reflexivity.
Qed.

End QueryProperties.

(** ** The final wait of [stop], and [start] followed by [stop] *)

Section RoundTrip.

Context {W : Type} {host : Host W}.
Variable cfg : config.

(** The polling loop raises nothing. *)
Lemma poll_loop_no_raise (label : string) (p : proc) (T : Z) (fuel : nat) :
  forall (k : Z) (s : st W) (e : exn),
    fst (poll_loop fuel label p T k s) <> Raise e.
Proof.
  induction fuel as [|fuel IH]; intros k s e; [discriminate|].
  cbn [poll_loop]. unfold bind at 1, poll at 1.
  destruct (host_poll p (world s)) as [[rc|] w']; [discriminate|].
  destruct (k <? T)%Z.
  - unfold bind at 1, sleep1. apply IH.
  - unfold bind at 1, log at 1, emit. unfold bind at 1, terminate at 1.
    apply IH.
Qed.

(** Once the poweroff command is launched, either the loop uses up the
    fuel, or [stop] ends in the wait, with no other step in between. *)
Lemma stop_waits_run (fuel : nat) (label status : string) (s : st W)
    (p : proc) (w0 : W) :
  fst (_status cfg label s) = Ok status ->
  status <> POWEROFF ->
  status <> ABORTED ->
  host_spawn (poweroff_args cfg label) (status_world cfg label s)
  = (inr p, w0) ->
  fst (stop cfg fuel label s) = OutOfFuel
  \/ exists evs : list event,
       steps evs = []
       /\ trace (snd (stop cfg fuel label s))
          = (trace (after_status cfg "Stopping vm " label s)
             ++ EvExec (poweroff_args cfg label)
                :: evs
             ++ [EvWaitStatus label [POWEROFF; ABORTED; SAVED]])%list.
Proof.
  intros Hst Hp Ha Hspawn.
  unfold status_world in Hspawn.
  rewrite <- (after_status_world cfg "Stopping vm " label s) in Hspawn.
  set (s2 := after_status cfg "Stopping vm " label s) in *.
  assert (Hmem : Py.mem status [POWEROFF; ABORTED] = false).
  { cbn. apply String.eqb_neq in Hp, Ha. now rewrite Hp, Ha. }
  rewrite stop_unfold. cbv zeta. rewrite Hst, Hmem. fold s2.
  destruct (stop_body cfg fuel label s2) as [rb sb] eqn:Hbody.
  cbn [fst snd]. revert Hbody.
  unfold stop_body. cbv zeta.
  set (T := timeouts_vm_state cfg).
  unfold bind at 1, try_except. unfold bind at 1, popen at 1.
  unfold poweroff_args in *. rewrite Hspawn. unfold bind at 1.
  match goal with
  | |- context [poll_loop fuel label p T 0%Z ?s0] =>
      destruct (poll_loop_counts label p T fuel 0%Z s0)
        as (evs & Htr & Hevs & _);
      pose proof (poll_loop_no_raise label p T fuel 0%Z s0) as Hnr;
      destruct (poll_loop fuel label p T 0%Z s0) as [[[rc stop_me]|e|] s']
  end; cbn [fst snd trace] in *.
  - destruct (negb (rc =? 0)%Z && (stop_me <? T)%Z);
      unfold log, emit, ret, bind, _wait_status; cbn [world trace];
      match goal with
      | |- context [host_wait_status ?l ?ts ?w] =>
          destruct (host_wait_status l ts w) as [[m|] w3]
      end; intros [= <- <-]; right.
    1,2: exists (evs
                 ++ [EvLog DEBUG
                       "VBoxManage exited with error powering off the machine"
                       []])%list.
    3,4: exists evs.
    all: rewrite ?steps_app, Hevs; (split; [reflexivity|]);
      cbn [trace]; rewrite Htr, <- !app_assoc; reflexivity.
  - exfalso. now apply (Hnr e).
  - intros [= <- <-]. now left.
Qed.

(** X13: once the poweroff command is launched, [stop] ends in the wait for
    one of [poweroff], [aborted] and [saved] however the process came to
    its end, by itself or by a signal, and with whatever exit code:
    unless the loop never ends, the steps of [stop] are the query, the
    poweroff and the wait. *)
Theorem stop_always_waits (fuel : nat) (label status : string) (s : st W)
    (p : proc) (w0 : W) :
  fst (_status cfg label s) = Ok status ->
  status <> POWEROFF ->
  status <> ABORTED ->
  host_spawn (poweroff_args cfg label) (status_world cfg label s)
  = (inr p, w0) ->
  fst (stop cfg fuel label s) <> OutOfFuel ->
  steps (trace (snd (stop cfg fuel label s)))
  = (steps (trace s)
     ++ [EvExec (status_args cfg label);
         EvExec (poweroff_args cfg label);
         EvWaitStatus label [POWEROFF; ABORTED; SAVED]])%list.
Proof.
  intros Hst Hp Ha Hspawn Hfuel.
  destruct (stop_waits_run fuel label status s p w0 Hst Hp Ha Hspawn)
    as [Hout|(evs & Hevs & Htr)]; [contradiction|].
  rewrite Htr, steps_app, after_status_steps.
  change (EvExec (poweroff_args cfg label)
          :: evs ++ [EvWaitStatus label [POWEROFF; ABORTED; SAVED]])%list
    with ([EvExec (poweroff_args cfg label)]
          ++ evs ++ [EvWaitStatus label [POWEROFF; ABORTED; SAVED]])%list.
  rewrite !steps_app, Hevs. cbn. now rewrite <- app_assoc.
Qed.

(** X14: [start] followed by [stop] on a machine without the option
    [nictrace]: when every step of [start] succeeds (the restore exits
    with zero, both waits succeed, the start command writes nothing on
    its standard error), [stop] then finds the machine neither powered
    off nor aborted, the poweroff command can be launched and the
    polling loop comes to its end, the steps are, in order, the query,
    the restore, the wait for [saved], the start, the wait for
    [running], the query again, the poweroff and the wait for one of
    [poweroff], [aborted] and [saved]. *)
Theorem start_then_stop_steps (fuel : nat) (label status status' : string)
    (t : task) (s : st W) (c1 c2 : completed) (w1 w2 w3 w4 w0 : W)
    (p : proc) :
  fst (_status cfg label s) = Ok status ->
  status <> RUNNING ->
  host_run (snapshot_args cfg label (looked_up cfg label s))
    (status_world cfg label s) = (inr c1, w1) ->
  returncode c1 = 0%Z ->
  host_wait_status label [SAVED] w1 = (None, w2) ->
  host_run (startvm_args cfg label) w2 = (inr c2, w3) ->
  stderr c2 = "" ->
  host_wait_status label [RUNNING] w3 = (None, w4) ->
  Py.mem "nictrace" (options (looked_up cfg label s)) = false ->
  fst (_status cfg label (snd (start cfg label t s))) = Ok status' ->
  status' <> POWEROFF ->
  status' <> ABORTED ->
  host_spawn (poweroff_args cfg label)
    (status_world cfg label (snd (start cfg label t s))) = (inr p, w0) ->
  fst (start_then_stop cfg fuel label t s) <> OutOfFuel ->
  steps (trace (snd (start_then_stop cfg fuel label t s)))
  = (steps (trace s)
     ++ [EvExec (status_args cfg label);
         EvExec (snapshot_args cfg label (looked_up cfg label s));
         EvWaitStatus label [SAVED];
         EvExec (startvm_args cfg label);
         EvWaitStatus label [RUNNING];
         EvExec (status_args cfg label);
         EvExec (poweroff_args cfg label);
         EvWaitStatus label [POWEROFF; ABORTED; SAVED]])%list.
Proof.
  intros Hst Hne Hrun1 Hrc1 Hwait1 Hrun2 Herr2 Hwait2 Hmem
    Hst' Hp Ha Hspawn.
  pose proof (start_in_order_run cfg label status t s c1 c2 w1 w2 w3 w4
                Hst Hne Hrun1 Hrc1 Hwait1 Hrun2 Herr2 Hwait2) as Hstart.
  rewrite Hmem in Hstart. unfold ret in Hstart.
  pose proof (steps_start_in_order cfg label s (looked_up cfg label s) [])
    as Hsteps.
  rewrite !app_nil_r in Hsteps.
  unfold start_then_stop, bind.
  destruct (start cfg label t s) as [r s'].
  injection Hstart as -> ->. cbn [fst snd] in *. intros Hfuel.
  destruct (stop_waits_run fuel label status' _ p w0 Hst' Hp Ha Hspawn)
    as [Hout|(evs & Hevs & Htr)]; [contradiction|].
  rewrite Htr, steps_app, after_status_steps. cbn [trace]. rewrite Hsteps.
  change (EvExec (poweroff_args cfg label)
          :: evs ++ [EvWaitStatus label [POWEROFF; ABORTED; SAVED]])%list
    with ([EvExec (poweroff_args cfg label)]
          ++ evs ++ [EvWaitStatus label [POWEROFF; ABORTED; SAVED]])%list.
  rewrite !steps_app, Hevs. cbn. now rewrite <- !app_assoc.
Qed.

End RoundTrip.

(** ** The further properties on the simulated host *)

Lemma start_steps_in_order_on_cuckoo1 :
  fst (start (Sim.cfg 3) "cuckoo1" (Task 7)
         (Sim.machine_in "poweroff" Sim.prompt)) = Ok tt
  /\ steps (trace (snd (start (Sim.cfg 3) "cuckoo1" (Task 7)
                          (Sim.machine_in "poweroff" Sim.prompt))))
     = [EvExec ["VBoxManage"; "showvminfo"; "cuckoo1"; "--machinereadable"];
        EvExec ["VBoxManage"; "snapshot"; "cuckoo1"; "restorecurrent"];
        EvWaitStatus "cuckoo1" ["saved"];
        EvExec ["VBoxManage"; "startvm"; "cuckoo1"; "--type"; "headless"];
        EvWaitStatus "cuckoo1" ["running"]].
Proof.
  destruct (start_steps_in_order (host := Sim.host) (Sim.cfg 3) "cuckoo1"
              "poweroff" (Task 7)
              (Sim.machine_in "poweroff" Sim.prompt) _ _ _ _ _ _
              ltac:(reflexivity) ltac:(discriminate) ltac:(reflexivity)
              ltac:(reflexivity) ltac:(reflexivity) ltac:(reflexivity)
              ltac:(reflexivity) ltac:(reflexivity) ltac:(reflexivity))
    as (H1 & _ & H3).
  exact (conj H1 H3).
Defined.

Lemma start_stops_at_failed_restore_on_cuckoo1 :
  fst (start (Sim.cfg 3) "cuckoo1" (Task 7) Sim.restore_fails)
  = Raise (CuckooMachineError
             "VBoxManage exited with error trying to restore the machine's snapshot")
  /\ steps (trace (snd (start (Sim.cfg 3) "cuckoo1" (Task 7)
                          Sim.restore_fails)))
     = [EvExec ["VBoxManage"; "showvminfo"; "cuckoo1"; "--machinereadable"];
        EvExec ["VBoxManage"; "snapshot"; "cuckoo1"; "restorecurrent"]].
Proof.
  exact (start_stops_at_failed_restore (host := Sim.host) (Sim.cfg 3)
           "cuckoo1" "poweroff" (Task 7) Sim.restore_fails
           (inr (Completed 1%Z "" "")) _
           ltac:(reflexivity) ltac:(discriminate) ltac:(reflexivity)
           ltac:(intros c [= <-]; discriminate)).
Defined.

Lemma start_stops_at_failed_wait_on_cuckoo1 :
  fst (start (Sim.cfg 3) "cuckoo1" (Task 7) Sim.wait_times_out)
  = Raise (CuckooMachineError
             "Timeout hit while for machine cuckoo1 to change status")
  /\ steps (trace (snd (start (Sim.cfg 3) "cuckoo1" (Task 7)
                          Sim.wait_times_out)))
     = [EvExec ["VBoxManage"; "showvminfo"; "cuckoo1"; "--machinereadable"];
        EvExec ["VBoxManage"; "snapshot"; "cuckoo1"; "restorecurrent"];
        EvWaitStatus "cuckoo1" ["saved"]].
Proof.
  exact (start_stops_at_failed_wait (host := Sim.host) (Sim.cfg 3)
           "cuckoo1" "poweroff" _ (Task 7) Sim.wait_times_out _ _ _
           ltac:(reflexivity) ltac:(discriminate) ltac:(reflexivity)
           ltac:(reflexivity) ltac:(reflexivity)).
Defined.

Lemma start_fails_on_stderr_on_cuckoo1 :
  fst (start (Sim.cfg 3) "cuckoo1" (Task 7) Sim.start_complains)
  = Raise (CuckooMachineError
             "VBoxManage failed starting the machine in HEADLESS mode: VBoxManage: error: The machine is locked")
  /\ steps (trace (snd (start (Sim.cfg 3) "cuckoo1" (Task 7)
                          Sim.start_complains)))
     = [EvExec ["VBoxManage"; "showvminfo"; "cuckoo1"; "--machinereadable"];
        EvExec ["VBoxManage"; "snapshot"; "cuckoo1"; "restorecurrent"];
        EvWaitStatus "cuckoo1" ["saved"];
        EvExec ["VBoxManage"; "startvm"; "cuckoo1"; "--type"; "headless"]].
Proof.
  exact (start_fails_on_stderr (host := Sim.host) (Sim.cfg 3)
           "cuckoo1" "poweroff" (Task 7) Sim.start_complains _
           (inr (Completed 0%Z ""
                   "VBoxManage: error: The machine is locked")) _ _ _
           ltac:(reflexivity) ltac:(discriminate) ltac:(reflexivity)
           ltac:(reflexivity) ltac:(reflexivity) ltac:(reflexivity)
           ltac:(intros c [= <-]; discriminate)).
Defined.

Lemma dump_pcap_stops_at_failed_tracefile_on_cuckoo1 :
  fst (dump_pcap (Sim.cfg 3) "cuckoo1" (Task 7) Sim.tracefile_fails) = Ok tt
  /\ commands (trace (snd (dump_pcap (Sim.cfg 3) "cuckoo1" (Task 7)
                             Sim.tracefile_fails)))
     = [["VBoxManage"; "controlvm"; "cuckoo1"; "nictracefile1"; "dump.pcap"]].
Proof.
  rewrite (dump_pcap_stops_at_failed_tracefile (host := Sim.host) (Sim.cfg 3)
             "cuckoo1" (Task 7) Sim.tracefile_fails
             (Completed 1%Z "" "") (world Sim.tracefile_fails)
             ltac:(reflexivity) ltac:(discriminate)).
  split; reflexivity.
Defined.

Lemma dump_pcap_enables_after_tracefile_on_cuckoo1 :
  fst (dump_pcap (Sim.cfg 3) "cuckoo1" (Task 7) (Sim.listing "")) = Ok tt
  /\ commands (trace (snd (dump_pcap (Sim.cfg 3) "cuckoo1" (Task 7)
                             (Sim.listing ""))))
     = [["VBoxManage"; "controlvm"; "cuckoo1"; "nictracefile1"; "dump.pcap"];
        ["VBoxManage"; "controlvm"; "cuckoo1"; "nictrace1"; "on"]].
Proof.
  rewrite (dump_pcap_enables_after_tracefile (host := Sim.host) (Sim.cfg 3)
             "cuckoo1" (Task 7) (Sim.listing "")
             (Completed 0%Z "" "") (Completed 0%Z "" "")
             (world (Sim.listing "")) (world (Sim.listing ""))
             ltac:(reflexivity) ltac:(reflexivity) ltac:(reflexivity)).
  split; reflexivity.
Defined.

Lemma start_survives_failed_trace_on_cuckoo1 :
  fst (start (Sim.cfg 3) "cuckoo1" (Task 7) Sim.tracefile_fails) = Ok tt
  /\ steps (trace (snd (start (Sim.cfg 3) "cuckoo1" (Task 7)
                          Sim.tracefile_fails)))
     = [EvExec ["VBoxManage"; "showvminfo"; "cuckoo1"; "--machinereadable"];
        EvExec ["VBoxManage"; "snapshot"; "cuckoo1"; "restorecurrent"];
        EvWaitStatus "cuckoo1" ["saved"];
        EvExec ["VBoxManage"; "startvm"; "cuckoo1"; "--type"; "headless"];
        EvWaitStatus "cuckoo1" ["running"];
        EvExec ["VBoxManage"; "controlvm"; "cuckoo1"; "nictracefile1";
                "dump.pcap"]].
Proof.
  exact (start_survives_failed_trace (host := Sim.host) (Sim.cfg 3)
           "cuckoo1" "poweroff" (Task 7) Sim.tracefile_fails
           _ _ (Completed 1%Z "" "") _ _ _ _ _
           ltac:(reflexivity) ltac:(discriminate) ltac:(reflexivity)
           ltac:(reflexivity) ltac:(reflexivity) ltac:(reflexivity)
           ltac:(reflexivity) ltac:(reflexivity) ltac:(reflexivity)
           ltac:(reflexivity) ltac:(discriminate)).
Defined.

Lemma stop_exits_in_time_on_cuckoo1 :
  terminations
    (trace (snd (stop (Sim.cfg 5) 10 "cuckoo1"
                   (Sim.machine_in "running" (Sim.exits_after 2 1)))))
  = 0%nat
  /\ sleeps
       (trace (snd (stop (Sim.cfg 5) 10 "cuckoo1"
                      (Sim.machine_in "running" (Sim.exits_after 2 1)))))
     = 2%nat
  /\ fst (stop (Sim.cfg 5) 10 "cuckoo1"
            (Sim.machine_in "running" (Sim.exits_after 2 1)))
     = Ok tt.
Proof.
  destruct (stop_exits_in_time (host := Sim.host) (Sim.cfg 5) 10 2
              "cuckoo1" "running"
              (Sim.machine_in "running" (Sim.exits_after 2 1))
              tt _ _ _ 1%Z
              ltac:(reflexivity) ltac:(discriminate) ltac:(discriminate)
              ltac:(reflexivity) ltac:(cbn; lia) ltac:(reflexivity)
              ltac:(reflexivity) ltac:(lia))
    as (Htr & Hterm & Hres).
  split; [exact Hterm|]. split; [|exact Hres].
  rewrite Htr. reflexivity.
Defined.

Lemma stop_fails_at_launch_on_cuckoo1 :
  fst (stop (Sim.cfg 3) 10 "cuckoo1"
         (Sim.init (Sim.unspawnable (Sim.dump_of "running"))))
  = Raise (CuckooMachineError
             "VBoxManage failed powering off the machine: [Errno 12] Cannot allocate memory")
  /\ steps (trace (snd (stop (Sim.cfg 3) 10 "cuckoo1"
                          (Sim.init (Sim.unspawnable
                                       (Sim.dump_of "running"))))))
     = [EvExec ["VBoxManage"; "showvminfo"; "cuckoo1"; "--machinereadable"];
        EvExec ["VBoxManage"; "controlvm"; "cuckoo1"; "poweroff"]].
Proof.
  exact (stop_fails_at_launch (host := Sim.host) (Sim.cfg 3) 10
           "cuckoo1" "running" _
           (Sim.init (Sim.unspawnable (Sim.dump_of "running"))) _
           ltac:(reflexivity) ltac:(discriminate) ltac:(discriminate)
           ltac:(reflexivity)).
Defined.

Lemma stop_launches_query_and_poweroff_on_saved :
  exists tail : list event,
    (tail = []
     \/ tail = [EvWaitStatus "cuckoo1" ["poweroff"; "aborted"; "saved"]])
    /\ steps (trace (snd (stop (Sim.cfg 3) 10 "cuckoo1"
                            (Sim.machine_in "saved" Sim.prompt))))
       = (EvExec ["VBoxManage"; "showvminfo"; "cuckoo1";
                  "--machinereadable"]
          :: EvExec ["VBoxManage"; "controlvm"; "cuckoo1"; "poweroff"]
          :: tail).
Proof.
  exact (stop_launches_query_and_poweroff (host := Sim.host) (Sim.cfg 3) 10
           "cuckoo1" "saved" (Sim.machine_in "saved" Sim.prompt)
           ltac:(reflexivity) ltac:(discriminate) ltac:(discriminate)).
Defined.

Lemma stop_signals_only_after_timeout_on_cuckoo1 :
  terminations
    (trace (snd (stop (Sim.cfg 2) 10 "cuckoo1"
                   (Sim.machine_in "running" (Sim.stuck 0)))))
  = 1%nat
  /\ sleeps
       (trace (snd (stop (Sim.cfg 2) 10 "cuckoo1"
                      (Sim.machine_in "running" (Sim.stuck 0)))))
     = 2%nat.
Proof.
  split; [reflexivity|].
  exact (stop_signals_only_after_timeout (host := Sim.host) (Sim.cfg 2) 10
           "cuckoo1" (Sim.machine_in "running" (Sim.stuck 0))
           ltac:(cbn; discriminate)).
Defined.

Lemma stop_always_waits_on_cuckoo1 :
  steps (trace (snd (stop (Sim.cfg 1) 10 "cuckoo1"
                       (Sim.machine_in "running" (Sim.stuck 1)))))
  = [EvExec ["VBoxManage"; "showvminfo"; "cuckoo1"; "--machinereadable"];
     EvExec ["VBoxManage"; "controlvm"; "cuckoo1"; "poweroff"];
     EvWaitStatus "cuckoo1" ["poweroff"; "aborted"; "saved"]].
Proof.
  exact (stop_always_waits (host := Sim.host) (Sim.cfg 1) 10
           "cuckoo1" "running" (Sim.machine_in "running" (Sim.stuck 1))
           tt _
           ltac:(reflexivity) ltac:(discriminate) ltac:(discriminate)
           ltac:(reflexivity) ltac:(cbn; discriminate)).
Defined.

Lemma start_then_stop_steps_on_cuckoo1 :
  steps (trace (snd (start_then_stop (Sim.cfg 3) 10 "cuckoo1" (Task 7)
                       (Sim.machine_in "saved" Sim.prompt))))
  = [EvExec ["VBoxManage"; "showvminfo"; "cuckoo1"; "--machinereadable"];
     EvExec ["VBoxManage"; "snapshot"; "cuckoo1"; "restorecurrent"];
     EvWaitStatus "cuckoo1" ["saved"];
     EvExec ["VBoxManage"; "startvm"; "cuckoo1"; "--type"; "headless"];
     EvWaitStatus "cuckoo1" ["running"];
     EvExec ["VBoxManage"; "showvminfo"; "cuckoo1"; "--machinereadable"];
     EvExec ["VBoxManage"; "controlvm"; "cuckoo1"; "poweroff"];
     EvWaitStatus "cuckoo1" ["poweroff"; "aborted"; "saved"]].
Proof.
  exact (start_then_stop_steps (host := Sim.host) (Sim.cfg 3) 10
           "cuckoo1" "saved" "saved" (Task 7)
           (Sim.machine_in "saved" Sim.prompt) _ _ _ _ _ _ _ tt
           ltac:(reflexivity) ltac:(discriminate) ltac:(reflexivity)
           ltac:(reflexivity) ltac:(reflexivity) ltac:(reflexivity)
           ltac:(reflexivity) ltac:(reflexivity) ltac:(reflexivity)
           ltac:(reflexivity) ltac:(discriminate) ltac:(discriminate)
           ltac:(reflexivity) ltac:(cbn; discriminate)).
Defined.

Lemma status_is_lowercase_on_mixed_case :
  fst (_status (Sim.cfg 3) "cuckoo1" (Sim.machine_in "PowerOff" Sim.prompt))
  = Ok "poweroff"
  /\ Py.lower "poweroff" = "poweroff".
Proof.
  split; [reflexivity|].
  exact (status_is_lowercase (host := Sim.host) (Sim.cfg 3) "cuckoo1"
           (Sim.machine_in "PowerOff" Sim.prompt) "poweroff"
           ltac:(reflexivity)).
Defined.

Lemma status_reports_the_sentinel :
  reports (trace (snd (_status (Sim.cfg 3) "cuckoo1"
                         (Sim.init Sim.status_denied))))
  = [("cuckoo1", "machete")].
Proof.
  exact (status_reports_what_it_returns (host := Sim.host) (Sim.cfg 3)
           "cuckoo1" (Sim.init Sim.status_denied) ERROR ltac:(reflexivity)).
Defined.

Lemma status_raises_without_report :
  reports (trace (snd (_status (Sim.cfg 3) "cuckoo1"
                         (Sim.listing Sim.dump_without_state))))
  = [].
Proof.
  exact (proj1 (proj2
           (status_raises_only_after_clean_exit (host := Sim.host)
              (Sim.cfg 3) "cuckoo1" (Sim.listing Sim.dump_without_state)
              (CuckooMachineError "Unable to get status for cuckoo1")
              ltac:(reflexivity)))).
Defined.

Lemma list_labels_are_clean_on_inventory :
  Py.contains Py.dquote "box1" = false
  /\ Py.contains Py.newline "box1" = false
  /\ "box1" <> "<inaccessible>".
Proof.
  exact (list_labels_are_clean (host := Sim.host) (Sim.cfg 3)
           (Sim.listing Sim.inventory) ["box1"; "box2"] ltac:(reflexivity)
           "box1" ltac:(left; reflexivity)).
Defined.

Lemma list_of_empty_output :
  fst (_list (Sim.cfg 3) (Sim.listing "")) = Ok [].
Proof.
  exact (list_of_output_without_quote (host := Sim.host) (Sim.cfg 3)
           (Sim.listing "") (Completed 0%Z "" "") _
           ltac:(reflexivity) ltac:(reflexivity)).
Defined.

Lemma list_of_inventory_twice :
  fst (_list (Sim.cfg 3) (Sim.listing Sim.inventory_twice))
  = Ok ["box1"; "box2"; "box1"; "box2"].
Proof.
  destruct (list_of_joined_outputs (host := Sim.host) (Sim.cfg 3)
              (Sim.listing Sim.inventory) (Sim.listing Sim.inventory)
              (Sim.listing Sim.inventory_twice)
              (Completed 0%Z Sim.inventory "")
              (Completed 0%Z Sim.inventory "")
              (Completed 0%Z Sim.inventory_twice "") _ _ _
              ltac:(reflexivity) ltac:(reflexivity) ltac:(reflexivity)
              ltac:(reflexivity))
    as (l1 & l2 & H1 & H2 & H3).
  injection H1 as <-. injection H2 as <-. exact H3.
Defined.

Lemma dump_memory_reports_success_on_failed_dump :
  fst (dump_memory (Sim.cfg 3) "cuckoo1" "/tmp/mem.dmp" Sim.dump_fails)
  = Ok tt
  /\ exists tr : list event,
       trace (snd (dump_memory (Sim.cfg 3) "cuckoo1" "/tmp/mem.dmp"
                     Sim.dump_fails))
       = (tr ++ [EvLog INFO
                   "Successfully generated memory dump for virtual machine with label %s to path %s"
                   [LStr "cuckoo1"; LStr "/tmp/mem.dmp"]])%list.
Proof.
  exact (dump_memory_reports_success (host := Sim.host) (Sim.cfg 3)
           "cuckoo1" "/tmp/mem.dmp" Sim.dump_fails
           (Completed 0%Z "5.0.10" "") (Completed 1%Z "" "VBoxManage: error")
           _ _ ltac:(reflexivity) ltac:(reflexivity)).
Defined.

Lemma dump_memory_fails_at_version_on_cuckoo1 :
  fst (dump_memory (Sim.cfg 3) "cuckoo1" "/tmp/mem.dmp"
         (Sim.init Sim.unlaunchable))
  = Raise (CuckooMachineError
             "VBoxManage failed return it's version: [Errno 2] No such file or directory")
  /\ commands (trace (snd (dump_memory (Sim.cfg 3) "cuckoo1" "/tmp/mem.dmp"
                             (Sim.init Sim.unlaunchable))))
     = [["VBoxManage"; "-v"]].
Proof.
  rewrite (dump_memory_fails_at_version (host := Sim.host) (Sim.cfg 3)
             "cuckoo1" "/tmp/mem.dmp" _ (Sim.init Sim.unlaunchable)
             Sim.unlaunchable ltac:(reflexivity)).
  split; reflexivity.
Defined.

Lemma dump_memory_fails_at_dump_on_cuckoo1 :
  fst (dump_memory (Sim.cfg 3) "cuckoo1" "/tmp/mem.dmp"
         Sim.dump_unlaunchable)
  = Raise (CuckooMachineError
             "VBoxManage failed to take a memory dump of the machine with label cuckoo1: [Errno 2] No such file or directory").
Proof.
  rewrite (dump_memory_fails_at_dump (host := Sim.host) (Sim.cfg 3)
             "cuckoo1" "/tmp/mem.dmp" _ Sim.dump_unlaunchable
             (Completed 0%Z "5.0.10" "") (world Sim.dump_unlaunchable)
             (world Sim.dump_unlaunchable)
             ltac:(reflexivity) ltac:(reflexivity)).
  reflexivity.
Defined.

Lemma quoted_field_of_inventory_line :
  exists field,
    nth_error (Py.split Py.dquote (Py.quoted "box1" ++ " {uuid}")) 1
    = Some field.
Proof.
  exact (proj2 (quoted_field_exists_iff_quote
                  (Py.quoted "box1" ++ " {uuid}")) eq_refl).
Defined.

(** ** A status that cannot be resolved *)

Section StatusError.

Context {W : Type} {host : Host W}.
Variable cfg : config.

(** X25: when the status cannot be resolved, [start] and [stop] raise the
    error of the status query and do nothing else: the query is their
    only step. *)
Theorem status_error_propagates (fuel : nat) (label : string) (t : task)
    (s : st W) (e : exn) :
  fst (_status cfg label s) = Raise e ->
  (fst (start cfg label t s) = Raise e
   /\ steps (trace (snd (start cfg label t s)))
      = (steps (trace s) ++ [EvExec (status_args cfg label)])%list)
  /\ (fst (stop cfg fuel label s) = Raise e
      /\ steps (trace (snd (stop cfg fuel label s)))
         = (steps (trace s) ++ [EvExec (status_args cfg label)])%list).
Proof.
  intros Hst. rewrite start_unfold, stop_unfold. cbv zeta. rewrite Hst.
  cbn [fst snd]. rewrite !after_status_steps. repeat split.
Qed.

End StatusError.

Lemma status_error_propagates_on_cuckoo1 :
  fst (start (Sim.cfg 3) "cuckoo1" (Task 7)
         (Sim.listing Sim.dump_without_state))
  = Raise (CuckooMachineError "Unable to get status for cuckoo1")
  /\ fst (stop (Sim.cfg 3) 10 "cuckoo1"
            (Sim.listing Sim.dump_without_state))
     = Raise (CuckooMachineError "Unable to get status for cuckoo1").
Proof.
  destruct (status_error_propagates (host := Sim.host) (Sim.cfg 3) 10
              "cuckoo1" (Task 7) (Sim.listing Sim.dump_without_state)
              (CuckooMachineError "Unable to get status for cuckoo1")
              ltac:(reflexivity)) as ((H1 & _) & (H2 & _)).
  exact (conj H1 H2).
Defined.
